(** * RKE2 cluster setup script: a shallow embedding of [setup_cluster.py]

    The script is a linear orchestrator: every stage shells out to an
    external binary and looks at the exit status or the captured output.
    The embedding keeps that shape.  The operating system is an abstract
    [World] reached through the operations of the class [System]; a stage
    is a function from a world to an outcome, the next world and the list
    of effects it performed, in order.  [sys.exit] and an uncaught
    exception end the run. *)

From Stdlib Require Import String Ascii List ZArith Lia Bool DecimalString.
Import ListNotations.
Local Open Scope list_scope.
Local Open Scope string_scope.

(** ** Text *)

(** Python [str] values are modelled as byte strings (UTF-8).  [lower]
    folds the ASCII letters only.  For the one use the script makes of
    [str.lower] (is ["inactive"] a substring of [stdout.lower()]) this
    agrees with Python: the only characters outside ASCII whose lower
    case holds an ASCII letter are U+0130, which becomes [i] followed by
    a combining dot, and U+212A, which becomes [k]; neither can take part
    in an occurrence of ["inactive"]. *)

Definition lower_ascii (c : ascii) : ascii :=
  let n := nat_of_ascii c in
  if ((65 <=? n) && (n <=? 90))%nat then ascii_of_nat (n + 32) else c.

Fixpoint lower (s : string) : string :=
  match s with
  | EmptyString => EmptyString
  | String c t => String (lower_ascii c) (lower t)
  end.

(** [str_in needle hay] is Python's [needle in hay]. *)
Fixpoint str_in (needle hay : string) : bool :=
  String.prefix needle hay ||
  match hay with
  | EmptyString => false
  | String _ t => str_in needle t
  end.

Fixpoint repeat_str (s : string) (n : nat) : string :=
  match n with
  | O => EmptyString
  | S k => s ++ repeat_str s k
  end.

Definition nl : string := String (ascii_of_nat 10) EmptyString.
Definition esc : string := String (ascii_of_nat 27) EmptyString.

(** ANSI color codes for terminal output. *)
Module Colors.
Definition HEADER : string := esc ++ "[95m".
Definition OKBLUE : string := esc ++ "[94m".
Definition OKCYAN : string := esc ++ "[96m".
Definition OKGREEN : string := esc ++ "[92m".
Definition WARNING : string := esc ++ "[93m".
Definition FAIL : string := esc ++ "[91m".
Definition ENDC : string := esc ++ "[0m".
Definition BOLD : string := esc ++ "[1m".
End Colors.

(** ** Data *)

(** The triple returned by [run_command]. *)
Record CommandResult : Type := mkResult {
  returncode : Z;
  stdout : string;
  stderr : string
}.

(** The four helpers [print_step], [print_success], [print_error] and
    [print_warning] and the bare [print] calls. *)
Inductive level : Type := Step | Success | Error | Warning | Plain.

(** What the process does to its environment, in the order it does it. *)
Inductive event : Type :=
| EPrint (lv : level) (msg : string)
| ERun (cmd : string) (res : CommandResult)
| EMkdir (path : string)
| EChdir (path : string)
| ESetenv (key val : string)
| ESleep (secs : Z).

(** The text a console event puts on the terminal, line by line. *)
Definition render (lv : level) (msg : string) : list string :=
  match lv with
  | Step =>
      let rule := Colors.HEADER ++ Colors.BOLD ++ repeat_str "=" 60 ++ Colors.ENDC in
      [nl ++ rule; Colors.HEADER ++ Colors.BOLD ++ msg ++ Colors.ENDC; rule ++ nl]
  | Success => [Colors.OKGREEN ++ "✓ " ++ msg ++ Colors.ENDC]
  | Error => [Colors.FAIL ++ "✗ " ++ msg ++ Colors.ENDC]
  | Warning => [Colors.WARNING ++ "⚠ " ++ msg ++ Colors.ENDC]
  | Plain => [msg]
  end.

(** How a run ends: the function returns, [sys.exit code] was called, or
    an exception nobody catches was raised. *)
Inductive outcome (A : Type) : Type :=
| Ret (a : A)
| Exit (code : Z)
| Raise (exn : string).
Arguments Ret {A} a.
Arguments Exit {A} code.
Arguments Raise {A} exn.

(** Exit status of the interpreter. *)
Definition exit_code {A : Type} (o : outcome A) : Z :=
  match o with
  | Ret _ => 0
  | Exit c => c
  | Raise _ => 1
  end.

(** The operating system and the Python library, as far as the script
    uses them.  [exec] is [subprocess.run(command, shell=True)]: exit
    status and the two output streams of the child, and the world it
    leaves behind.  The two streams are text: what [text=True] makes of
    the bytes of the child.  Output that cannot be decoded, on which
    [subprocess.run] raises [UnicodeDecodeError] when the output is
    captured, is outside this model, and so is everything below that
    speaks of a captured command returning.  [mkdir_parents] and [chdir]
    return [None] when the call raises [OSError]. *)
Class System (World : Type) : Type := {
  exec : string -> World -> CommandResult * World;
  path_exists : string -> World -> bool;
  mkdir_parents : string -> World -> option World;
  chdir : string -> World -> option World;
  getcwd : World -> string;
  setenv : string -> string -> World -> World;
  sleep : Z -> World -> World;
  expanduser : string -> string;
  path_parent : string -> string;
  path_join : string -> string -> string;
  str_CalledProcessError : string -> Z -> string
}.

Record ClusterSetup : Type := mkClusterSetup {
  master_ip : string;
  worker_ips : list string;
  ssh_user : string;
  ssh_key_path : string;
  all_nodes : list string
}.

(** The parsed command line. *)
Record Args : Type := mkArgs {
  arg_master_ip : string;
  arg_worker_ips : list string;
  arg_ssh_user : string;
  arg_ssh_key : string;
  arg_skip_prep : bool;
  arg_skip_firewall : bool;
  arg_destroy : bool;
  arg_verify_only : bool
}.

(** ** The monad of stages *)

Definition M (World A : Type) : Type := World -> outcome A * World * list event.

Definition ret {World A : Type} (a : A) : M World A :=
  fun w => (Ret a, w, []).

Definition bind {World A B : Type} (m : M World A) (f : A -> M World B) : M World B :=
  fun w =>
    match m w with
    | (Ret a, w1, e1) =>
        match f a w1 with
        | (o, w2, e2) => (o, w2, (e1 ++ e2)%list)
        end
    | (Exit c, w1, e1) => (Exit c, w1, e1)
    | (Raise x, w1, e1) => (Raise x, w1, e1)
    end.

Notation "x <- m ; k" := (bind m (fun x => k))
  (at level 61, m at next level, right associativity).
Notation "m ;; k" := (bind m (fun _ => k))
  (at level 61, right associativity).

(** [for x in l: body x] *)
Fixpoint for_each {World A : Type} (l : list A) (body : A -> M World unit) : M World unit :=
  match l with
  | [] => ret tt
  | x :: t => body x ;; for_each t body
  end.

(** [for x in l: s = body s x], for a loop that updates a local variable. *)
Fixpoint for_fold {World A S : Type} (l : list A) (s : S) (body : S -> A -> M World S) : M World S :=
  match l with
  | [] => ret s
  | x :: t => s' <- body s x ; for_fold t s' body
  end.

Definition value_of {World A : Type} (m : M World A) (w : World) : outcome A := fst (fst (m w)).
Definition world_after {World A : Type} (m : M World A) (w : World) : World := snd (fst (m w)).
Definition events_of {World A : Type} (m : M World A) (w : World) : list event := snd (m w).

Section Script.
Context {World : Type} `{System World}.

Local Abbreviation M := (M World).

(** *** Primitive effects *)

Definition print (lv : level) (msg : string) : M unit :=
  fun w => (Ret tt, w, [EPrint lv msg]).

Definition sys_exit {A : Type} (code : Z) : M A :=
  fun w => (Exit code, w, []).

Definition subprocess_run (command : string) : M CommandResult :=
  fun w => let (r, w') := exec command w in (Ret r, w', [ERun command r]).

Definition os_path_exists (path : string) : M bool :=
  fun w => (Ret (path_exists path w), w, []).

Definition os_mkdir_parents (path : string) : M unit :=
  fun w =>
    match mkdir_parents path w with
    | Some w' => (Ret tt, w', [EMkdir path])
    | None => (Raise "OSError", w, [])
    end.

Definition os_chdir (path : string) : M unit :=
  fun w =>
    match chdir path w with
    | Some w' => (Ret tt, w', [EChdir path])
    | None => (Raise "OSError", w, [])
    end.

Definition os_getcwd : M string :=
  fun w => (Ret (getcwd w), w, []).

Definition os_setenv (key val : string) : M unit :=
  fun w => (Ret tt, setenv key val w, [ESetenv key val]).

Definition time_sleep (secs : Z) : M unit :=
  fun w => (Ret tt, sleep secs w, [ESleep secs]).

(** *** ClusterSetup *)

(** [ClusterSetup.__init__] *)
Definition ClusterSetup_init (master_ip : string) (worker_ips : list string)
    (ssh_user ssh_key_path : string) : ClusterSetup :=
  {| master_ip := master_ip;
     worker_ips := worker_ips;
     ssh_user := ssh_user;
     ssh_key_path := expanduser ssh_key_path;
     all_nodes := [master_ip] ++ worker_ips |}.

Definition print_step : string -> M unit := print Step.
Definition print_success : string -> M unit := print Success.
Definition print_error : string -> M unit := print Error.
Definition print_warning : string -> M unit := print Warning.

(** [run_command]: with [check] a non-zero status raises
    [CalledProcessError], which the function catches, reports and turns
    into the same triple. *)
Definition run_command (command : string) (check capture_output : bool) : M CommandResult :=
  r <- subprocess_run command ;
  (if check && negb (returncode r =? 0)%Z then
     print_error ("Command failed: " ++ command) ;;
     print_error ("Error: " ++
       (if capture_output then stderr r
        else str_CalledProcessError command (returncode r)))
   else ret tt) ;;
  ret {| returncode := returncode r;
         stdout := if capture_output then stdout r else "";
         stderr := if capture_output then stderr r else "" |}.

Definition ssh_cmd (self : ClusterSetup) (host command : string) : string :=
  "ssh -o StrictHostKeyChecking=no -i " ++ ssh_key_path self ++ " " ++
  ssh_user self ++ "@" ++ host ++ " '" ++ command ++ "'".

Definition ssh_command (self : ClusterSetup) (host command : string) (check : bool)
    : M CommandResult :=
  run_command (ssh_cmd self host command) check true.

Definition check_prerequisites (self : ClusterSetup) : M bool :=
  print_step "Checking Prerequisites" ;;
  r <- run_command "terraform version" false true ;
  all_ok <- (if (returncode r =? 0)%Z then
               print_success "Terraform is installed" ;; ret true
             else
               print_error "Terraform is not installed" ;; ret false) ;
  r <- run_command "kubectl version --client" false true ;
  (if (returncode r =? 0)%Z then
     print_success "kubectl is installed"
   else
     print_warning "kubectl is not installed (optional, but recommended)") ;;
  found <- os_path_exists (ssh_key_path self) ;
  (if found then
     print_success ("SSH key found at " ++ ssh_key_path self) ;; ret all_ok
   else
     print_error ("SSH key not found at " ++ ssh_key_path self) ;; ret false).

Definition ssh_keygen_cmd (self : ClusterSetup) : string :=
  "ssh-keygen -t rsa -b 4096 -f " ++ ssh_key_path self ++ " -N " ++
  String (ascii_of_nat 34) (String (ascii_of_nat 34) EmptyString).

Definition generate_ssh_key (self : ClusterSetup) : M unit :=
  print_step "Generating SSH Key" ;;
  found <- os_path_exists (ssh_key_path self) ;
  if found then
    print_warning ("SSH key already exists at " ++ ssh_key_path self)
  else
    os_mkdir_parents (path_parent (ssh_key_path self)) ;;
    r <- run_command (ssh_keygen_cmd self) false false ;
    if (returncode r =? 0)%Z then
      print_success "SSH key generated successfully"
    else
      print_error "Failed to generate SSH key" ;;
      sys_exit 1.

Definition ssh_copy_id_cmd (self : ClusterSetup) (node : string) : string :=
  "ssh-copy-id -i " ++ ssh_key_path self ++ " " ++ ssh_user self ++ "@" ++ node.

Definition copy_ssh_keys (self : ClusterSetup) : M unit :=
  print_step "Copying SSH Keys to Nodes" ;;
  for_each (all_nodes self) (fun node =>
    print Plain (nl ++ "Copying SSH key to " ++ node ++ "...") ;;
    r <- run_command (ssh_copy_id_cmd self node) false false ;
    if (returncode r =? 0)%Z then
      print_success ("SSH key copied to " ++ node)
    else
      print_error ("Failed to copy SSH key to " ++ node)).

Definition connection_token : string := "Connection successful".
Definition connection_probe : string := "echo 'Connection successful'".

Definition test_ssh_connections (self : ClusterSetup) : M bool :=
  print_step "Testing SSH Connections" ;;
  for_fold (all_nodes self) true (fun all_ok node =>
    r <- ssh_command self node connection_probe false ;
    if (returncode r =? 0)%Z && str_in connection_token (stdout r) then
      print_success ("SSH connection to " ++ node ++ " successful") ;; ret all_ok
    else
      print_error ("SSH connection to " ++ node ++ " failed") ;; ret false).

Definition sudoers_cmd (self : ClusterSetup) : string :=
  "echo " ++ String (ascii_of_nat 34) EmptyString ++ ssh_user self ++
  " ALL=(ALL) NOPASSWD:ALL" ++ String (ascii_of_nat 34) EmptyString ++
  " | sudo tee /etc/sudoers.d/" ++ ssh_user self.

Definition setup_sudoers (self : ClusterSetup) : M unit :=
  print_step "Setting up Passwordless Sudo" ;;
  for_each (all_nodes self) (fun node =>
    print Plain (nl ++ "Configuring sudo on " ++ node ++ "...") ;;
    r <- ssh_command self node (sudoers_cmd self) false ;
    if (returncode r =? 0)%Z then
      ssh_command self node ("sudo chmod 0440 /etc/sudoers.d/" ++ ssh_user self) false ;;
      t <- ssh_command self node "sudo ls /root" false ;
      if (returncode t =? 0)%Z then
        print_success ("Passwordless sudo configured on " ++ node)
      else
        print_error ("Sudo test failed on " ++ node)
    else
      print_error ("Failed to configure sudo on " ++ node)).

Definition prepare_nodes (self : ClusterSetup) : M unit :=
  print_step "Preparing Nodes" ;;
  for_each (all_nodes self) (fun node =>
    print Plain (nl ++ Colors.OKCYAN ++ "Preparing " ++ node ++ "..." ++ Colors.ENDC) ;;
    print Plain "  - Updating system..." ;;
    ssh_command self node "sudo apt-get update -qq" false ;;
    print Plain "  - Installing required packages..." ;;
    ssh_command self node "sudo apt-get install -y curl jq" false ;;
    print Plain "  - Disabling swap..." ;;
    ssh_command self node "sudo swapoff -a" false ;;
    ssh_command self node "sudo sed -i '/ swap / s/^/#/' /etc/fstab" false ;;
    print_success ("Node " ++ node ++ " prepared")).

Definition master_ports : list (string * string) :=
  [ ("6443/tcp", "Kubernetes API");
    ("9345/tcp", "RKE2 supervisor API");
    ("10250/tcp", "Kubelet");
    ("2379:2380/tcp", "etcd") ].

Definition worker_ports : list (string * string) :=
  [ ("10250/tcp", "Kubelet");
    ("30000:32767/tcp", "NodePort services") ].

(** The loop [for port, description in ports] of [configure_firewall]. *)
Definition allow_ports (self : ClusterSetup) (host : string)
    (ports : list (string * string)) : M unit :=
  for_each ports (fun pd =>
    print Plain ("  - Allowing " ++ fst pd ++ " (" ++ snd pd ++ ")") ;;
    ssh_command self host ("sudo ufw allow " ++ fst pd) false ;;
    ret tt).

Definition configure_firewall (self : ClusterSetup) : M unit :=
  print_step "Configuring Firewall" ;;
  r <- ssh_command self (master_ip self) "sudo ufw status" false ;
  if str_in "inactive" (lower (stdout r)) then
    print_warning "UFW is not active, skipping firewall configuration"
  else
    print Plain (nl ++ Colors.OKCYAN ++ "Configuring firewall on master node..." ++ Colors.ENDC) ;;
    allow_ports self (master_ip self) master_ports ;;
    print_success "Master node firewall configured" ;;
    for_each (worker_ips self) (fun worker =>
      print Plain (nl ++ Colors.OKCYAN ++ "Configuring firewall on " ++ worker ++ "..." ++ Colors.ENDC) ;;
      allow_ports self worker worker_ports ;;
      print_success ("Worker node " ++ worker ++ " firewall configured")).

Definition terraform_init (self : ClusterSetup) : M unit :=
  print_step "Initializing Terraform" ;;
  os_chdir "cluster" ;;
  r <- run_command "terraform init" true false ;
  if (returncode r =? 0)%Z then
    print_success "Terraform initialized"
  else
    print_error "Terraform initialization failed" ;;
    sys_exit 1.

Definition terraform_validate (self : ClusterSetup) : M unit :=
  print_step "Validating Terraform Configuration" ;;
  r <- run_command "terraform validate" true false ;
  if (returncode r =? 0)%Z then
    print_success "Terraform configuration is valid"
  else
    print_error "Terraform configuration is invalid" ;;
    sys_exit 1.

Definition terraform_plan (self : ClusterSetup) : M unit :=
  print_step "Running Terraform Plan" ;;
  r <- run_command "terraform plan" true false ;
  if (returncode r =? 0)%Z then
    print_success "Terraform plan completed"
  else
    print_error "Terraform plan failed" ;;
    sys_exit 1.

Definition terraform_apply (self : ClusterSetup) : M unit :=
  print_step "Applying Terraform Configuration" ;;
  r <- run_command "terraform apply -auto-approve" true false ;
  if (returncode r =? 0)%Z then
    print_success "Terraform apply completed"
  else
    print_error "Terraform apply failed" ;;
    sys_exit 1.

Definition verify_cluster (self : ClusterSetup) : M unit :=
  print_step "Verifying Cluster" ;;
  cwd <- os_getcwd ;
  os_setenv "KUBECONFIG" (path_join cwd "kubeconfig.yaml") ;;
  print Plain "Waiting for cluster to be ready..." ;;
  time_sleep 30 ;;
  print Plain (nl ++ "Checking nodes...") ;;
  r <- run_command "kubectl get nodes" false true ;
  (if (returncode r =? 0)%Z then
     print Plain (stdout r) ;;
     print_success "Nodes are accessible"
   else
     print_error "Failed to get nodes") ;;
  print Plain (nl ++ "Checking pods...") ;;
  r <- run_command "kubectl get pods -A" false true ;
  (if (returncode r =? 0)%Z then
     print Plain (stdout r) ;;
     print_success "Pods are accessible"
   else
     print_error "Failed to get pods") ;;
  print Plain (nl ++ "Cluster info:") ;;
  run_command "kubectl cluster-info" false false ;;
  ret tt.

Definition terraform_destroy (self : ClusterSetup) : M unit :=
  print_step "Destroying Cluster" ;;
  r <- run_command "terraform destroy -auto-approve" true false ;
  if (returncode r =? 0)%Z then
    print_success "Cluster destroyed"
  else
    print_error "Failed to destroy cluster" ;;
    sys_exit 1.

(** [main], after [parser.parse_args()]. *)
Definition main (args : Args) : M unit :=
  let setup := ClusterSetup_init (arg_master_ip args) (arg_worker_ips args)
                 (arg_ssh_user args) (arg_ssh_key args) in
  if arg_destroy args then
    terraform_destroy setup
  else if arg_verify_only args then
    verify_cluster setup
  else
    ok <- check_prerequisites setup ;
    (if negb ok then sys_exit 1 else ret tt) ;;
    generate_ssh_key setup ;;
    copy_ssh_keys setup ;;
    ok <- test_ssh_connections setup ;
    (if negb ok then sys_exit 1 else ret tt) ;;
    setup_sudoers setup ;;
    (if negb (arg_skip_prep args) then prepare_nodes setup else ret tt) ;;
    (if negb (arg_skip_firewall args) then configure_firewall setup else ret tt) ;;
    terraform_init setup ;;
    terraform_validate setup ;;
    terraform_plan setup ;;
    terraform_apply setup ;;
    verify_cluster setup.

End Script.

(** ** Observing a run *)

(** The banners printed by [print_step], in order: one per stage. *)
Fixpoint stages (tr : list event) : list string :=
  match tr with
  | [] => []
  | EPrint Step msg :: t => msg :: stages t
  | _ :: t => stages t
  end.

(** The shell commands issued, in order, each with what the child returned. *)
Fixpoint runs (tr : list event) : list (string * CommandResult) :=
  match tr with
  | [] => []
  | ERun cmd res :: t => (cmd, res) :: runs t
  | _ :: t => runs t
  end.

Definition commands (tr : list event) : list string := map fst (runs tr).

(** Everything but the console output. *)
Fixpoint effects (tr : list event) : list event :=
  match tr with
  | [] => []
  | EPrint _ _ :: t => effects t
  | e :: t => e :: effects t
  end.


Definition terraform_commands : list string :=
  [ "terraform init"; "terraform validate"; "terraform plan";
    "terraform apply -auto-approve" ].

(** The test [test_ssh_connections] applies to the answer of one host. *)
Definition connection_ok (r : CommandResult) : bool :=
  (returncode r =? 0)%Z && str_in connection_token (stdout r).


Section Threading.
Context {World : Type} `{System World}.

(** Exit statuses of commands run one after the other from [w]. *)
Fixpoint statuses (cmds : list string) (w : World) : list Z :=
  match cmds with
  | [] => []
  | c :: t => returncode (fst (exec c w)) :: statuses t (snd (exec c w))
  end.

(** The world in which [main] starts the connectivity check. *)
Definition before_connectivity (self : ClusterSetup) (w : World) : World :=
  world_after (copy_ssh_keys self)
    (world_after (generate_ssh_key self)
      (world_after (check_prerequisites self) w)).



End Threading.

(** ** Stages that cannot stop the run *)

(** [quiet m]: from every world [m] returns, and prints no banner. *)
Definition quiet {World A : Type} (m : M World A) : Prop :=
  forall w, (exists a, value_of m w = Ret a) /\ stages (events_of m w) = [].

(** [issues m cmds]: from every world [m] returns after issuing exactly
    the commands [cmds], in that order. *)
Definition issues {World A : Type} (m : M World A) (cmds : list string) : Prop :=
  forall w, (exists a, value_of m w = Ret a) /\ commands (events_of m w) = cmds.

(** [stage banner m]: from every world [m] returns, having printed the
    one banner [banner]. *)
Definition stage {World A : Type} (banner : string) (m : M World A) : Prop :=
  forall w, (exists a, value_of m w = Ret a) /\ stages (events_of m w) = [banner].

(** [runs_in_order expected m w]: the banners printed by [m] from [w]
    are an initial part of [expected]; the run ends with status 0 or 1;
    and it ends with status 0 exactly when all of [expected] was printed. *)
Definition runs_in_order {World A : Type} (expected : list string)
    (m : M World A) (w : World) : Prop :=
  (exists rest, expected = (stages (events_of m w) ++ rest)%list) /\
  (exit_code (value_of m w) = 0%Z \/ exit_code (value_of m w) = 1%Z) /\
  (exit_code (value_of m w) = 0%Z <-> stages (events_of m w) = expected).

(** ** A laboratory world

    A small concrete [System], used to run the script on explicit inputs:
    every command is answered by a table, one file (the key) and one
    directory ([cluster]) may or may not be there. *)

Record Lab : Type := mkLab {
  lab_key : bool;
  lab_cluster_dir : bool;
  lab_cwd : string;
  lab_env : list (string * string);
  lab_clock : Z;
  lab_answer : string -> CommandResult
}.

Fixpoint lab_dirname (s : string) : string :=
  match s with
  | EmptyString => EmptyString
  | String c t => if str_in "/" t then String c (lab_dirname t) else EmptyString
  end.

Definition lab_decimal (z : Z) : string :=
  DecimalString.NilZero.string_of_int (Z.to_int z).

#[export] Instance Lab_System : System Lab := {|
  exec c w :=
    (lab_answer w c,
     if String.prefix "ssh-keygen " c && (returncode (lab_answer w c) =? 0)%Z
     then mkLab true (lab_cluster_dir w) (lab_cwd w) (lab_env w) (lab_clock w) (lab_answer w)
     else w);
  path_exists _ w := lab_key w;
  mkdir_parents _ w := Some w;
  chdir d w :=
    if lab_cluster_dir w
    then Some (mkLab (lab_key w) (lab_cluster_dir w) (lab_cwd w ++ "/" ++ d)
                 (lab_env w) (lab_clock w) (lab_answer w))
    else None;
  getcwd w := lab_cwd w;
  setenv k v w :=
    mkLab (lab_key w) (lab_cluster_dir w) (lab_cwd w) ((k, v) :: lab_env w)
      (lab_clock w) (lab_answer w);
  sleep n w :=
    mkLab (lab_key w) (lab_cluster_dir w) (lab_cwd w) (lab_env w)
      (lab_clock w + n)%Z (lab_answer w);
  expanduser p :=
    match p with
    | String "~" rest => "/home/hkn" ++ rest
    | _ => p
    end;
  path_parent p :=
    match lab_dirname p with
    | EmptyString => if String.prefix "/" p then "/" else "."
    | d => d
    end;
  path_join a b := a ++ "/" ++ b;
  str_CalledProcessError c rc :=
    "Command '" ++ c ++ "' returned non-zero exit status " ++ lab_decimal rc ++ "."
|}.

(** Every host answers, every tool is installed and succeeds. *)
Definition healthy_answer (c : string) : CommandResult :=
  if str_in connection_probe c
  then mkResult 0 (connection_token ++ nl) ""
  else mkResult 0 "" "".

(** The same, without terraform on the PATH. *)
Definition no_terraform_answer (c : string) : CommandResult :=
  if String.prefix "terraform" c
  then mkResult 127 "" "/bin/sh: 1: terraform: not found"
  else healthy_answer c.

(** The hosts answer, but the remote shell exits with status 1 on the
    second worker after echoing the token. *)
Definition flaky_answer (c : string) : CommandResult :=
  if str_in "10.211.55.30" c && str_in connection_probe c
  then mkResult 1 (connection_token ++ nl) "Connection to 10.211.55.30 closed."
  else healthy_answer c.

(** The firewall tool of the leader reports that it is switched off. *)
Definition ufw_off_answer (c : string) : CommandResult :=
  if str_in "sudo ufw status" c
  then mkResult 0 ("Status: Inactive" ++ nl) ""
  else healthy_answer c.


(** No cluster client installed. *)
Definition no_kubectl_answer (c : string) : CommandResult :=
  if String.prefix "kubectl" c
  then mkResult 127 "" "/bin/sh: 1: kubectl: not found"
  else healthy_answer c.

Definition lab (key : bool) (answer : string -> CommandResult) : Lab :=
  mkLab key true "/home/hkn/rke2" [] 0 answer.

(** The command line with every default of the parser. *)
Definition default_args : Args :=
  {| arg_master_ip := "10.211.55.28";
     arg_worker_ips := ["10.211.55.29"; "10.211.55.30"];
     arg_ssh_user := "hkn";
     arg_ssh_key := "~/.ssh/id_rsa";
     arg_skip_prep := false;
     arg_skip_firewall := false;
     arg_destroy := false;
     arg_verify_only := false |}.

Definition destroy_args : Args :=
  {| arg_master_ip := "10.211.55.28";
     arg_worker_ips := ["10.211.55.29"; "10.211.55.30"];
     arg_ssh_user := "hkn";
     arg_ssh_key := "~/.ssh/id_rsa";
     arg_skip_prep := false;
     arg_skip_firewall := false;
     arg_destroy := true;
     arg_verify_only := false |}.

Definition verify_only_args : Args :=
  {| arg_master_ip := "10.211.55.28";
     arg_worker_ips := ["10.211.55.29"; "10.211.55.30"];
     arg_ssh_user := "hkn";
     arg_ssh_key := "~/.ssh/id_rsa";
     arg_skip_prep := false;
     arg_skip_firewall := false;
     arg_destroy := false;
     arg_verify_only := true |}.

Definition default_setup : ClusterSetup :=
  ClusterSetup_init "10.211.55.28" ["10.211.55.29"; "10.211.55.30"] "hkn" "~/.ssh/id_rsa".

(** ** More observations *)

(** The number of exit statuses 0 at the head of a list: how many
    commands succeeded before the first one that failed. *)
Fixpoint leading_ok (statuses : list Z) : nat :=
  match statuses with
  | [] => O
  | s :: t => if (s =? 0)%Z then S (leading_ok t) else O
  end.

(** The banners of a run that goes through, given the two skip flags. *)
Definition expected_stages (args : Args) : list string :=
  ([ "Checking Prerequisites";
     "Generating SSH Key";
     "Copying SSH Keys to Nodes";
     "Testing SSH Connections";
     "Setting up Passwordless Sudo" ] ++
   (if arg_skip_prep args then [] else ["Preparing Nodes"]) ++
   (if arg_skip_firewall args then [] else ["Configuring Firewall"]) ++
   [ "Initializing Terraform";
     "Validating Terraform Configuration";
     "Running Terraform Plan";
     "Applying Terraform Configuration";
     "Verifying Cluster" ])%list.

Section Phases.
Context {World : Type} `{System World}.

(** The last five calls of [main]. *)
Definition terraform_phase (self : ClusterSetup) : M World unit :=
  terraform_init self ;;
  terraform_validate self ;;
  terraform_plan self ;;
  terraform_apply self ;;
  verify_cluster self.

(** The world in which [main] starts [terraform_init], given the flags. *)
Definition before_terraform_with (args : Args) (self : ClusterSetup) (w : World) : World :=
  world_after (if negb (arg_skip_firewall args) then configure_firewall self else ret tt)
    (world_after (if negb (arg_skip_prep args) then prepare_nodes self else ret tt)
      (world_after (setup_sudoers self)
        (world_after (test_ssh_connections self)
          (before_connectivity self w)))).

(** The fatal gates of a build, read off the world, given the flags. *)
Definition run_succeeds (args : Args) (self : ClusterSetup) (w : World) : Prop :=
  value_of (check_prerequisites self) w = Ret true /\
  value_of (test_ssh_connections self) (before_connectivity self w) = Ret true /\
  exists w', chdir "cluster" (before_terraform_with args self w) = Some w' /\
             statuses terraform_commands w' = [0; 0; 0; 0]%Z.

(** What [setup_sudoers] issues on one node, given the three answers it
    may get: the rule file is written; the permissions are set and the
    rule is tried only when writing it exited with status 0. *)
Definition sudoers_block (self : ClusterSetup) (node : string)
    (answers : CommandResult * CommandResult * CommandResult)
    : list (string * CommandResult) :=
  let '(tee, chmod, test) := answers in
  (ssh_cmd self node (sudoers_cmd self), tee) ::
  (if (returncode tee =? 0)%Z then
     [ (ssh_cmd self node ("sudo chmod 0440 /etc/sudoers.d/" ++ ssh_user self), chmod);
       (ssh_cmd self node "sudo ls /root", test) ]
   else []).

(** What [prepare_nodes] issues on one node. *)
Definition prepare_cmds (self : ClusterSetup) (node : string) : list string :=
  [ ssh_cmd self node "sudo apt-get update -qq";
    ssh_cmd self node "sudo apt-get install -y curl jq";
    ssh_cmd self node "sudo swapoff -a";
    ssh_cmd self node "sudo sed -i '/ swap / s/^/#/' /etc/fstab" ].

End Phases.

(** The command line of [--skip-prep --skip-firewall]. *)
Definition skip_args : Args :=
  {| arg_master_ip := "10.211.55.28";
     arg_worker_ips := ["10.211.55.29"; "10.211.55.30"];
     arg_ssh_user := "hkn";
     arg_ssh_key := "~/.ssh/id_rsa";
     arg_skip_prep := true;
     arg_skip_firewall := true;
     arg_destroy := false;
     arg_verify_only := false |}.

(** The tee on the first worker is refused. *)
Definition sudo_refused_answer (c : string) : CommandResult :=
  if str_in "10.211.55.29" c && str_in "sudo tee" c
  then mkResult 1 "" "sudo: a password is required"
  else healthy_answer c.

(** Terraform is installed, but the plan fails. *)
Definition plan_fails_answer (c : string) : CommandResult :=
  if String.eqb c "terraform plan"
  then mkResult 1 "" "Error: Invalid provider configuration"
  else healthy_answer c.

(** * Properties *)

(** ** Text *)

Lemma prefix_app (n post : string) : String.prefix n (n ++ post) = true.
Proof.
  induction n as [|c n IH]; simpl.
  - destruct post; reflexivity.
  - destruct (Ascii.ascii_dec c c) as [_|ne]; [exact IH | contradiction].
Qed.

Lemma prefix_split (n h : string) :
  String.prefix n h = true -> exists post, h = n ++ post.
Proof.
  revert h; induction n as [|c n IH]; intros h Hp.
  - exists h; reflexivity.
  - destruct h as [|d h]; simpl in Hp; [discriminate|].
    destruct (Ascii.ascii_dec c d) as [->|]; [|discriminate].
    destruct (IH h Hp) as [post ->]. exists post; reflexivity.
Qed.

Lemma str_in_prefix (n h : string) : String.prefix n h = true -> str_in n h = true.
Proof. intros Hp. destruct h; cbn [str_in]; now rewrite Hp. Qed.

Lemma str_in_app (n pre post : string) : str_in n (pre ++ n ++ post) = true.
Proof.
  induction pre as [|c pre IH]; cbn [append str_in].
  - apply str_in_prefix, prefix_app.
  - rewrite IH. apply orb_true_r.
Qed.

Lemma str_in_split (n h : string) :
  str_in n h = true -> exists pre post, h = pre ++ n ++ post.
Proof.
  induction h as [|c h IH]; cbn [str_in]; intros Hin.
  - rewrite orb_false_r in Hin. destruct (prefix_split _ _ Hin) as [post E].
    exists EmptyString, post; exact E.
  - apply orb_true_iff in Hin. destruct Hin as [Hp|Hin].
    + destruct (prefix_split _ _ Hp) as [post E].
      exists EmptyString, post; exact E.
    + destruct (IH Hin) as (pre & post & ->).
      exists (String c pre), post; reflexivity.
Qed.

Lemma lower_app (a b : string) : lower (a ++ b) = lower a ++ lower b.
Proof.
  induction a as [|c a IH]; simpl; [reflexivity | now rewrite IH].
Qed.

(** A case-insensitive occurrence of ["inactive"] is what the firewall
    stage tests for. *)
Lemma inactive_anywhere (out pre mid post : string) :
  out = pre ++ mid ++ post -> lower mid = "inactive" ->
  str_in "inactive" (lower out) = true.
Proof.
  intros -> Hmid. rewrite !lower_app, Hmid. apply str_in_app.
Qed.

(** ** Traces *)

Lemma stages_app (a b : list event) : stages (a ++ b) = (stages a ++ stages b)%list.
Proof.
  induction a as [|e a IH]; simpl; [reflexivity|].
  destruct e as [lv msg| | | | |]; try exact IH.
  destruct lv; simpl; now rewrite ?IH.
Qed.

Lemma runs_app (a b : list event) : runs (a ++ b) = (runs a ++ runs b)%list.
Proof.
  induction a as [|e a IH]; simpl; [reflexivity|].
  destruct e; simpl; now rewrite ?IH.
Qed.

Lemma commands_app (a b : list event) :
  commands (a ++ b) = (commands a ++ commands b)%list.
Proof. unfold commands. now rewrite runs_app, map_app. Qed.

Lemma effects_app (a b : list event) : effects (a ++ b) = (effects a ++ effects b)%list.
Proof.
  induction a as [|e a IH]; simpl; [reflexivity|].
  destruct e; simpl; now rewrite ?IH.
Qed.

(** ** Sequencing *)

Section Sequencing.
Context {World : Type}.

Lemma run_eta {A : Type} (m : M World A) (w : World) :
  m w = (value_of m w, world_after m w, events_of m w).
Proof.
  unfold value_of, world_after, events_of. now destruct (m w) as [[o w'] e].
Qed.

Lemma value_of_bind {A B : Type} (m : M World A) (f : A -> M World B) (w : World) :
  value_of (bind m f) w =
  match value_of m w with
  | Ret a => value_of (f a) (world_after m w)
  | Exit c => Exit c
  | Raise x => Raise x
  end.
Proof.
  unfold value_of, world_after, bind.
  destruct (m w) as [[[a|c|x] w1] e1]; simpl; try reflexivity.
  now destruct (f a w1) as [[o w2] e2].
Qed.

Lemma world_after_bind {A B : Type} (m : M World A) (f : A -> M World B) (w : World) :
  world_after (bind m f) w =
  match value_of m w with
  | Ret a => world_after (f a) (world_after m w)
  | _ => world_after m w
  end.
Proof.
  unfold value_of, world_after, bind.
  destruct (m w) as [[[a|c|x] w1] e1]; simpl; try reflexivity.
  now destruct (f a w1) as [[o w2] e2].
Qed.

Lemma events_of_bind {A B : Type} (m : M World A) (f : A -> M World B) (w : World) :
  events_of (bind m f) w =
  (events_of m w ++
   match value_of m w with
   | Ret a => events_of (f a) (world_after m w)
   | _ => []
   end)%list.
Proof.
  unfold value_of, world_after, events_of, bind.
  destruct (m w) as [[[a|c|x] w1] e1]; simpl; try (now rewrite app_nil_r).
  now destruct (f a w1) as [[o w2] e2].
Qed.

Lemma quiet_ret {A : Type} (a : A) : quiet (@ret World A a).
Proof. intros w. split; [now exists a | reflexivity]. Qed.

Lemma quiet_bind {A B : Type} (m : M World A) (f : A -> M World B) :
  quiet m -> (forall a, quiet (f a)) -> quiet (bind m f).
Proof.
  intros Hm Hf w. destruct (Hm w) as [[a Ha] Hs].
  rewrite value_of_bind, events_of_bind, Ha, stages_app, Hs.
  exact (Hf a (world_after m w)).
Qed.

Lemma quiet_for_each {A : Type} (l : list A) (body : A -> M World unit) :
  (forall x, quiet (body x)) -> quiet (for_each l body).
Proof.
  intros Hb. induction l as [|x l IH]; simpl.
  - apply quiet_ret.
  - apply quiet_bind; [apply Hb | intros _; exact IH].
Qed.

Lemma quiet_for_fold {A S : Type} (l : list A) (s : S) (body : S -> A -> M World S) :
  (forall s x, quiet (body s x)) -> quiet (for_fold l s body).
Proof.
  intros Hb. revert s. induction l as [|x l IH]; intros s; simpl.
  - apply quiet_ret.
  - apply quiet_bind; [apply Hb | intros s'; apply IH].
Qed.

Lemma quiet_if {A : Type} (b : bool) (m1 m2 : M World A) :
  quiet m1 -> quiet m2 -> quiet (if b then m1 else m2).
Proof. now destruct b. Qed.

Lemma issues_ret {A : Type} (a : A) : issues (@ret World A a) [].
Proof. intros w. split; [now exists a | reflexivity]. Qed.

Lemma issues_bind {A B : Type} (m : M World A) (f : A -> M World B)
    (c1 c2 : list string) :
  issues m c1 -> (forall a, issues (f a) c2) -> issues (bind m f) (c1 ++ c2)%list.
Proof.
  intros Hm Hf w. destruct (Hm w) as [[a Ha] Hc].
  rewrite value_of_bind, events_of_bind, Ha, commands_app, Hc.
  destruct (Hf a (world_after m w)) as [Hv Hc2]. now rewrite Hc2.
Qed.

Lemma issues_for_each {A : Type} (l : list A) (body : A -> M World unit)
    (g : A -> list string) :
  (forall x, issues (body x) (g x)) -> issues (for_each l body) (flat_map g l).
Proof.
  intros Hb. induction l as [|x l IH]; simpl.
  - apply issues_ret.
  - apply issues_bind; [apply Hb | intros _; exact IH].
Qed.

End Sequencing.

(** ** The helpers *)

Create HintDb quiet.

Section Stages.
Context {World : Type} `{System World}.

Lemma run_command_run (command : string) (check capture_output : bool) (w : World) :
  let r := fst (exec command w) in
  run_command command check capture_output w =
  (Ret {| returncode := returncode r;
          stdout := if capture_output then stdout r else "";
          stderr := if capture_output then stderr r else "" |},
   snd (exec command w),
   ERun command r ::
   (if check && negb (returncode r =? 0)%Z then
      [EPrint Error ("Command failed: " ++ command);
       EPrint Error ("Error: " ++
         (if capture_output then stderr r
          else str_CalledProcessError command (returncode r)))]
    else [])).
Proof.
  unfold run_command, bind, subprocess_run, print_error, print, ret.
  destruct (exec command w) as [r w']; simpl.
  destruct (check && negb (returncode r =? 0)%Z); reflexivity.
Qed.

Lemma run_command_value (command : string) (check capture_output : bool) (w : World) :
  value_of (run_command command check capture_output) w =
  Ret {| returncode := returncode (fst (exec command w));
         stdout := if capture_output then stdout (fst (exec command w)) else "";
         stderr := if capture_output then stderr (fst (exec command w)) else "" |}.
Proof. unfold value_of. now rewrite run_command_run. Qed.

Lemma run_command_world (command : string) (check capture_output : bool) (w : World) :
  world_after (run_command command check capture_output) w = snd (exec command w).
Proof. unfold world_after. now rewrite run_command_run. Qed.

Lemma run_command_runs (command : string) (check capture_output : bool) (w : World) :
  runs (events_of (run_command command check capture_output) w) =
  [(command, fst (exec command w))].
Proof.
  unfold events_of. rewrite run_command_run. simpl.
  now destruct (check && negb (returncode (fst (exec command w)) =? 0)%Z).
Qed.

Lemma quiet_run_command (command : string) (check capture_output : bool) :
  quiet (run_command command check capture_output).
Proof.
  intros w. split.
  - rewrite run_command_value. eauto.
  - unfold events_of. rewrite run_command_run. simpl.
    now destruct (check && negb (returncode (fst (exec command w)) =? 0)%Z).
Qed.

Lemma quiet_ssh_command (self : ClusterSetup) (host command : string) (check : bool) :
  quiet (ssh_command self host command check).
Proof. apply quiet_run_command. Qed.

Lemma quiet_print (lv : level) (msg : string) : lv <> Step -> quiet (World := World) (print lv msg).
Proof.
  intros Hlv w. split; [now exists tt|].
  destruct lv; try reflexivity. contradiction.
Qed.

Lemma quiet_print_success (msg : string) : quiet (World := World) (print_success msg).
Proof. apply quiet_print; discriminate. Qed.

Lemma quiet_print_error (msg : string) : quiet (World := World) (print_error msg).
Proof. apply quiet_print; discriminate. Qed.

Lemma quiet_print_warning (msg : string) : quiet (World := World) (print_warning msg).
Proof. apply quiet_print; discriminate. Qed.

Lemma quiet_print_plain (msg : string) : quiet (World := World) (print Plain msg).
Proof. apply quiet_print; discriminate. Qed.

Lemma quiet_os_getcwd : quiet os_getcwd.
Proof. intros w. split; [now exists (getcwd w) | reflexivity]. Qed.

Lemma quiet_os_setenv (key val : string) : quiet (os_setenv key val).
Proof. intros w. split; [now exists tt | reflexivity]. Qed.

Lemma quiet_time_sleep (secs : Z) : quiet (time_sleep secs).
Proof. intros w. split; [now exists tt | reflexivity]. Qed.

Lemma issues_print (lv : level) (msg : string) : issues (World := World) (print lv msg) [].
Proof. intros w. split; [now exists tt | reflexivity]. Qed.

Lemma issues_run_command (command : string) (check capture_output : bool) :
  issues (run_command command check capture_output) [command].
Proof.
  intros w. split.
  - rewrite run_command_value. eauto.
  - unfold commands. now rewrite run_command_runs.
Qed.

Lemma stage_intro {A : Type} (banner : string) (m : M World A) :
  quiet m -> stage banner (print_step banner ;; m).
Proof.
  intros Hm w. destruct (Hm w) as [Hv Hs].
  rewrite value_of_bind, events_of_bind, stages_app.
  change (value_of (print_step banner) w) with (@Ret unit tt).
  change (world_after (print_step banner) w) with w.
  change (events_of (print_step banner) w) with [EPrint Step banner].
  cbn iota. rewrite Hs. split; [exact Hv | reflexivity].
Qed.

End Stages.

#[export] Hint Resolve quiet_ret quiet_run_command quiet_ssh_command
  quiet_print_success quiet_print_error quiet_print_warning quiet_print_plain
  quiet_os_getcwd quiet_os_setenv quiet_time_sleep : quiet.

(** Breaks a goal [quiet m] along the shape of [m]. *)
Ltac quiet_tac :=
  repeat first
    [ solve [auto with quiet]
    | apply quiet_for_each; intros ?
    | apply quiet_for_fold; intros ? ?
    | apply quiet_if
    | apply quiet_bind; [| intros ?] ].

(** ** The advisory stages *)

Section Advisory.
Context {World : Type} `{System World}.
Variable self : ClusterSetup.

Lemma copy_ssh_keys_stage : stage "Copying SSH Keys to Nodes" (copy_ssh_keys self).
Proof. apply stage_intro. quiet_tac. Qed.

Lemma test_ssh_connections_stage :
  stage "Testing SSH Connections" (test_ssh_connections self).
Proof. apply stage_intro. quiet_tac. Qed.

Lemma setup_sudoers_stage : stage "Setting up Passwordless Sudo" (setup_sudoers self).
Proof. apply stage_intro. quiet_tac. Qed.

Lemma prepare_nodes_stage : stage "Preparing Nodes" (prepare_nodes self).
Proof. apply stage_intro. quiet_tac. Qed.

Lemma quiet_allow_ports (host : string) (ports : list (string * string)) :
  quiet (allow_ports self host ports).
Proof. unfold allow_ports. quiet_tac. Qed.

Lemma configure_firewall_stage : stage "Configuring Firewall" (configure_firewall self).
Proof.
  apply stage_intro. quiet_tac; try apply quiet_allow_ports; quiet_tac.
Qed.

Lemma verify_cluster_stage : stage "Verifying Cluster" (verify_cluster self).
Proof. apply stage_intro. quiet_tac. Qed.

End Advisory.

(** ** Construction, prerequisites, key generation, connectivity *)

Section Checks.
Context {World : Type} `{System World}.

(** C8.  For every leader address and every list of worker addresses,
    empty or not, [all_nodes] is the leader followed by the workers in
    their order; it has one entry more than the worker list; and nothing
    is removed: every address occurs as often as it does in the leader
    and the workers together, so a worker equal to the leader is listed
    twice. *)
Theorem all_nodes_leader_first (master : string) (workers : list string)
    (user key : string) :
  let self := ClusterSetup_init master workers user key in
  all_nodes self = master :: workers /\
  length (all_nodes self) = S (length workers) /\
  (forall x, count_occ string_dec (all_nodes self) x =
             (count_occ string_dec [master] x + count_occ string_dec workers x)%nat) /\
  count_occ string_dec (all_nodes self) master =
    S (count_occ string_dec workers master).
Proof.
  cbn [ClusterSetup_init all_nodes app]. repeat split.
  - intros x. cbn [count_occ]. now destruct (string_dec master x).
  - cbn [count_occ]. now destruct (string_dec master master).
Qed.

Lemma check_prerequisites_run (self : ClusterSetup) (w : World) :
  let terraform := exec "terraform version" w in
  let kubectl := exec "kubectl version --client" (snd terraform) in
  value_of (check_prerequisites self) w =
    Ret ((returncode (fst terraform) =? 0)%Z &&
         path_exists (ssh_key_path self) (snd kubectl)) /\
  world_after (check_prerequisites self) w = snd kubectl /\
  stages (events_of (check_prerequisites self) w) = ["Checking Prerequisites"].
Proof.
  cbv zeta.
  unfold check_prerequisites, run_command, subprocess_run, print_step,
    print_success, print_error, print_warning, print, os_path_exists, ret,
    bind, value_of, world_after, events_of.
  destruct (exec "terraform version" w) as [t w1]; cbn.
  destruct (returncode t =? 0)%Z; cbn;
    destruct (exec "kubectl version --client" w1) as [k w2]; cbn;
    destruct (returncode k =? 0)%Z; cbn;
    destruct (path_exists (ssh_key_path self) w2); cbn; auto.
Qed.

(** C3.  The prerequisite check always returns, and it returns false
    exactly when the terraform version probe exits with a non-zero status
    or the key file is not there; the status of the kubectl probe has no
    part in the answer, so a failing kubectl probe alone leaves it true. *)
Theorem check_prerequisites_false_iff (self : ClusterSetup) (w : World) :
  let terraform := exec "terraform version" w in
  let kubectl := exec "kubectl version --client" (snd terraform) in
  let key_found := path_exists (ssh_key_path self) (snd kubectl) in
  exists b : bool,
    value_of (check_prerequisites self) w = Ret b /\
    (b = false <-> (returncode (fst terraform) <> 0%Z \/ key_found = false)) /\
    (returncode (fst terraform) = 0%Z -> key_found = true ->
     returncode (fst kubectl) <> 0%Z -> b = true).
Proof.
  intros terraform kubectl key_found.
  destruct (check_prerequisites_run self w) as (Hv & _ & _).
  fold terraform kubectl key_found in Hv.
  exists ((returncode (fst terraform) =? 0)%Z && key_found). split; [exact Hv|].
  destruct (Z.eqb_spec (returncode (fst terraform)) 0) as [E|N];
    destruct key_found; simpl; split; try tauto; try (intros; congruence).
Qed.

Lemma generate_ssh_key_present (self : ClusterSetup) (w : World) :
  path_exists (ssh_key_path self) w = true ->
  generate_ssh_key self w =
  (Ret tt, w,
   [EPrint Step "Generating SSH Key";
    EPrint Warning ("SSH key already exists at " ++ ssh_key_path self)]).
Proof.
  intros Hk. unfold generate_ssh_key, bind, print_step, print, os_path_exists.
  now rewrite Hk.
Qed.

(** C7.  With the key file in place, key generation returns after its
    banner and one warning: it issues no command, creates no directory
    and hands back the world it was given, key file included.  Run twice
    in a row it does the same twice. *)
Theorem generate_ssh_key_idempotent (self : ClusterSetup) (w : World) :
  path_exists (ssh_key_path self) w = true ->
  let report :=
    [EPrint Step "Generating SSH Key";
     EPrint Warning ("SSH key already exists at " ++ ssh_key_path self)] in
  generate_ssh_key self w = (Ret tt, w, report) /\
  (generate_ssh_key self ;; generate_ssh_key self) w = (Ret tt, w, (report ++ report)%list) /\
  effects (events_of (generate_ssh_key self ;; generate_ssh_key self) w) = [].
Proof.
  intros Hk report.
  assert (H1 : generate_ssh_key self w = (Ret tt, w, report))
    by exact (generate_ssh_key_present self w Hk).
  assert (H2 : (generate_ssh_key self ;; generate_ssh_key self) w =
               (Ret tt, w, (report ++ report)%list)).
  { unfold bind at 1. now rewrite H1, H1. }
  repeat split; try assumption.
  unfold events_of. now rewrite H2.
Qed.

(** The loop of [test_ssh_connections]: one probe per node, in order, and
    the flag ends as the conjunction of the per-host tests. *)
Lemma probe_loop (self : ClusterSetup) (nodes : list string) (acc : bool) (w : World) :
  let loop :=
    for_fold nodes acc (fun all_ok node =>
      r <- ssh_command self node connection_probe false ;
      if (returncode r =? 0)%Z && str_in connection_token (stdout r) then
        print_success ("SSH connection to " ++ node ++ " successful") ;; ret all_ok
      else
        print_error ("SSH connection to " ++ node ++ " failed") ;; ret false) in
  exists results : list CommandResult,
    length results = length nodes /\
    runs (events_of loop w) =
      combine (map (fun node => ssh_cmd self node connection_probe) nodes) results /\
    value_of loop w = Ret (acc && forallb connection_ok results).
Proof.
  cbv zeta. set (body := fun (all_ok : bool) (node0 : string) => _).
  revert acc w. induction nodes as [|node nodes IH]; intros acc w.
  - exists []. cbn. now rewrite andb_true_r.
  - cbn [for_fold].
    set (r := fst (exec (ssh_cmd self node connection_probe) w)).
    set (w1 := snd (exec (ssh_cmd self node connection_probe) w)).
    assert (Hb : body acc node w =
                 (Ret (acc && connection_ok r), w1,
                  [ERun (ssh_cmd self node connection_probe) r;
                   EPrint (if connection_ok r then Success else Error)
                     (if connection_ok r
                      then "SSH connection to " ++ node ++ " successful"
                      else "SSH connection to " ++ node ++ " failed")])).
    { unfold body, ssh_command, bind at 1. rewrite run_command_run.
      fold r w1. cbn [returncode stdout andb negb]. unfold connection_ok.
      destruct ((returncode r =? 0)%Z && str_in connection_token (stdout r));
        cbn; now rewrite ?andb_true_r, ?andb_false_r. }
    destruct (IH (acc && connection_ok r) w1) as (results & Hlen & Hruns & Hval).
    exists (r :: results).
    assert (Hbv : value_of (body acc node) w = Ret (acc && connection_ok r))
      by (unfold value_of; now rewrite Hb).
    assert (Hbw : world_after (body acc node) w = w1)
      by (unfold world_after; now rewrite Hb).
    assert (Hbe : runs (events_of (body acc node) w) =
                  [(ssh_cmd self node connection_probe, r)])
      by (unfold events_of; now rewrite Hb).
    rewrite value_of_bind, events_of_bind, Hbv, Hbw, runs_app, Hbe, Hruns, Hval.
    cbn [length map combine app forallb]. rewrite Hlen, andb_assoc.
    repeat split; reflexivity.
Qed.

Lemma test_ssh_connections_run (self : ClusterSetup) (w : World) :
  exists results : list CommandResult,
    length results = length (all_nodes self) /\
    runs (events_of (test_ssh_connections self) w) =
      combine (map (fun node => ssh_cmd self node connection_probe) (all_nodes self))
              results /\
    value_of (test_ssh_connections self) w = Ret (forallb connection_ok results).
Proof.
  destruct (probe_loop self (all_nodes self) true w) as (results & Hlen & Hruns & Hval).
  exists results. unfold test_ssh_connections.
  rewrite value_of_bind, events_of_bind, runs_app.
  change (value_of (print_step "Testing SSH Connections") w) with (@Ret unit tt).
  change (world_after (print_step "Testing SSH Connections") w) with w.
  cbn iota. rewrite Hruns, Hval. repeat split; assumption || reflexivity.
Qed.

(** C2.  Connectivity verification probes every host of [all_nodes] once,
    in order, and always returns.  Its result is the conjunction, over
    all hosts, of the test made on the answer of each host: exit status
    0 and the token ["Connection successful"] in the captured standard
    output.  So it returns true only if the token occurs in the captured
    output of every host, and one host whose output lacks the token
    makes the result false. *)
Theorem test_ssh_connections_needs_token (self : ClusterSetup) (w : World) :
  exists (results : list CommandResult) (b : bool),
    length results = length (all_nodes self) /\
    runs (events_of (test_ssh_connections self) w) =
      combine (map (fun node => ssh_cmd self node connection_probe) (all_nodes self))
              results /\
    value_of (test_ssh_connections self) w = Ret b /\
    b = forallb (fun r => (returncode r =? 0)%Z &&
                          str_in "Connection successful" (stdout r)) results /\
    (b = true ->
     Forall (fun r => str_in "Connection successful" (stdout r) = true) results) /\
    ((exists r, In r results /\ str_in "Connection successful" (stdout r) = false) ->
     b = false).
Proof.
  destruct (test_ssh_connections_run self w) as (results & Hlen & Hruns & Hval).
  exists results, (forallb connection_ok results).
  split; [exact Hlen|]. split; [exact Hruns|]. split; [exact Hval|].
  split; [reflexivity|]. split.
  - intros Hb. apply Forall_forall. intros r Hr.
    rewrite forallb_forall in Hb. specialize (Hb r Hr).
    unfold connection_ok in Hb. now apply andb_true_iff in Hb.
  - intros (r & Hr & Hno).
    destruct (forallb connection_ok results) eqn:E; [|reflexivity].
    rewrite forallb_forall in E. specialize (E r Hr).
    unfold connection_ok, connection_token in E.
    rewrite Hno, andb_false_r in E. discriminate.
Qed.

(** C10.  Connectivity verification counts a host as reached only when
    the remote command exits with status 0 and its captured output holds
    the token: the result is true exactly when every host passes both
    tests, and a host that prints the token but exits with a non-zero
    status makes the result false. *)
Theorem test_ssh_connections_needs_status (self : ClusterSetup) (w : World) :
  exists (results : list CommandResult) (b : bool),
    length results = length (all_nodes self) /\
    runs (events_of (test_ssh_connections self) w) =
      combine (map (fun node => ssh_cmd self node connection_probe) (all_nodes self))
              results /\
    value_of (test_ssh_connections self) w = Ret b /\
    (b = true <->
     Forall (fun r => returncode r = 0%Z /\
                      str_in "Connection successful" (stdout r) = true) results) /\
    ((exists r, In r results /\
                str_in "Connection successful" (stdout r) = true /\
                returncode r <> 0%Z) ->
     b = false).
Proof.
  destruct (test_ssh_connections_run self w) as (results & Hlen & Hruns & Hval).
  exists results, (forallb connection_ok results).
  assert (Hiff : forallb connection_ok results = true <->
                 Forall (fun r => returncode r = 0%Z /\
                   str_in "Connection successful" (stdout r) = true) results).
  { rewrite forallb_forall, Forall_forall. unfold connection_ok, connection_token.
    split; intros Hall r Hr; specialize (Hall r Hr).
    - apply andb_true_iff in Hall. destruct Hall as [Hz Ht].
      split; [now apply Z.eqb_eq | exact Ht].
    - destruct Hall as [Hz Ht]. apply andb_true_iff. split; [now apply Z.eqb_eq | exact Ht]. }
  repeat split; try assumption; try apply Hiff.
  intros (r & Hr & _ & Hrc).
  destruct (forallb connection_ok results) eqn:E; [|reflexivity].
  destruct Hiff as [Hall _]. specialize (Hall eq_refl).
  rewrite Forall_forall in Hall. destruct (Hall r Hr) as [Hz _]. contradiction.
Qed.

End Checks.

(** ** Firewall *)

Section Firewall.
Context {World : Type} `{System World}.
Variable self : ClusterSetup.

Lemma bind_print {B : Type} (lv : level) (msg : string) (k : M World B) (w : World) :
  (print lv msg ;; k) w =
  (value_of k w, world_after k w, EPrint lv msg :: events_of k w).
Proof.
  unfold bind, print. rewrite (run_eta k w). reflexivity.
Qed.

Lemma bind_ssh_command {B : Type} (host command : string)
    (f : CommandResult -> M World B) (w : World) :
  let r := fst (exec (ssh_cmd self host command) w) in
  let w1 := snd (exec (ssh_cmd self host command) w) in
  (r' <- ssh_command self host command false ; f r') w =
  (value_of (f r) w1, world_after (f r) w1,
   ERun (ssh_cmd self host command) r :: events_of (f r) w1).
Proof.
  cbv zeta. unfold ssh_command, bind at 1. rewrite run_command_run.
  cbn [andb]. rewrite (run_eta (f _) _).
  now destruct (fst (exec (ssh_cmd self host command) w)).
Qed.

Lemma value_of_bind_print {B : Type} (lv : level) (msg : string) (k : M World B)
    (w : World) :
  value_of (print lv msg ;; k) w = value_of k w.
Proof. unfold value_of at 1. now rewrite bind_print. Qed.

Lemma events_of_bind_print {B : Type} (lv : level) (msg : string) (k : M World B)
    (w : World) :
  events_of (print lv msg ;; k) w = EPrint lv msg :: events_of k w.
Proof. unfold events_of at 1. now rewrite bind_print. Qed.

Lemma value_of_bind_ssh {B : Type} (host command : string)
    (f : CommandResult -> M World B) (w : World) :
  value_of (r' <- ssh_command self host command false ; f r') w =
  value_of (f (fst (exec (ssh_cmd self host command) w)))
           (snd (exec (ssh_cmd self host command) w)).
Proof. unfold value_of at 1. now rewrite bind_ssh_command. Qed.

Lemma events_of_bind_ssh {B : Type} (host command : string)
    (f : CommandResult -> M World B) (w : World) :
  events_of (r' <- ssh_command self host command false ; f r') w =
  ERun (ssh_cmd self host command) (fst (exec (ssh_cmd self host command) w)) ::
  events_of (f (fst (exec (ssh_cmd self host command) w)))
            (snd (exec (ssh_cmd self host command) w)).
Proof. unfold events_of at 1. now rewrite bind_ssh_command. Qed.

Lemma flat_map_singleton {A B : Type} (f : A -> B) (l : list A) :
  flat_map (fun x => [f x]) l = map f l.
Proof. induction l as [|x l IH]; simpl; now rewrite ?IH. Qed.



(** C4.  When the captured output of the status probe on the leader holds
    ["inactive"] in any mix of upper and lower case, anywhere, the stage
    returns after its banner, that one probe and a warning: the probe is
    the only command issued, so no port is opened on the leader or on any
    worker. *)
Theorem configure_firewall_inactive_skips (w : World) :
  let probe_cmd := ssh_cmd self (master_ip self) "sudo ufw status" in
  let probe := fst (exec probe_cmd w) in
  (exists pre mid post : string,
     stdout probe = pre ++ mid ++ post /\ lower mid = "inactive") ->
  configure_firewall self w =
    (Ret tt, snd (exec probe_cmd w),
     [EPrint Step "Configuring Firewall";
      ERun probe_cmd probe;
      EPrint Warning "UFW is not active, skipping firewall configuration"]) /\
  commands (events_of (configure_firewall self) w) = [probe_cmd].
Proof.
  intros probe_cmd probe (pre & mid & post & Hout & Hmid).
  pose proof (inactive_anywhere _ _ _ _ Hout Hmid) as Hin.
  assert (Hrun : configure_firewall self w =
    (Ret tt, snd (exec probe_cmd w),
     [EPrint Step "Configuring Firewall";
      ERun probe_cmd probe;
      EPrint Warning "UFW is not active, skipping firewall configuration"])).
  { unfold configure_firewall, print_step. rewrite bind_print.
    unfold value_of at 1, world_after at 1, events_of at 1.
    rewrite bind_ssh_command. fold probe_cmd probe. cbn [fst snd].
    rewrite Hin. reflexivity. }
  split; [exact Hrun|]. unfold events_of. now rewrite Hrun.
Qed.


End Firewall.

(** ** The fatal stages and [main] *)

Section Main.
Context {World : Type} `{System World}.

Lemma value_of_ret {A : Type} (a : A) (w : World) : value_of (ret a) w = Ret a.
Proof. reflexivity. Qed.

Lemma world_after_ret {A : Type} (a : A) (w : World) : world_after (ret a) w = w.
Proof. reflexivity. Qed.

Lemma events_of_ret {A : Type} (a : A) (w : World) : events_of (ret a) w = [].
Proof. reflexivity. Qed.

(** The shape shared by [terraform_validate], [terraform_plan],
    [terraform_apply] and [terraform_destroy]. *)
Lemma fatal_stage (banner cmd ok_msg err_msg : string) (w : World) :
  let m : M World unit :=
    print_step banner ;;
    r <- run_command cmd true false ;
    if (returncode r =? 0)%Z then print_success ok_msg
    else print_error err_msg ;; sys_exit 1 in
  let r := fst (exec cmd w) in
  value_of m w = (if (returncode r =? 0)%Z then Ret tt else Exit 1) /\
  world_after m w = snd (exec cmd w) /\
  stages (events_of m w) = [banner] /\
  effects (events_of m w) = [ERun cmd r].
Proof.
  cbv zeta.
  unfold run_command, subprocess_run, print_step, print_success, print_error,
    print, sys_exit, ret, bind, value_of, world_after, events_of.
  destruct (exec cmd w) as [r w1]; cbn.
  destruct (returncode r =? 0)%Z eqn:E; cbn; rewrite ?E; cbn; auto.
Qed.

Lemma terraform_init_run (self : ClusterSetup) (w : World) :
  stages (events_of (terraform_init self) w) = ["Initializing Terraform"] /\
  match chdir "cluster" w with
  | None => value_of (terraform_init self) w = Raise "OSError"
  | Some w' =>
      value_of (terraform_init self) w =
        (if (returncode (fst (exec "terraform init" w')) =? 0)%Z
         then Ret tt else Exit 1) /\
      world_after (terraform_init self) w = snd (exec "terraform init" w')
  end.
Proof.
  unfold terraform_init, os_chdir, run_command, subprocess_run, print_step,
    print_success, print_error, print, sys_exit, ret, bind, value_of,
    world_after, events_of.
  destruct (chdir "cluster" w) as [w'|]; cbn; [|auto].
  destruct (exec "terraform init" w') as [r w1]; cbn.
  destruct (returncode r =? 0)%Z eqn:E; cbn; rewrite ?E; cbn; auto.
Qed.

Lemma verify_cluster_run (self : ClusterSetup) (w : World) :
  exists r1 r2 r3 : CommandResult,
    value_of (verify_cluster self) w = Ret tt /\
    stages (events_of (verify_cluster self) w) = ["Verifying Cluster"] /\
    effects (events_of (verify_cluster self) w) =
      [ESetenv "KUBECONFIG" (path_join (getcwd w) "kubeconfig.yaml");
       ESleep 30;
       ERun "kubectl get nodes" r1;
       ERun "kubectl get pods -A" r2;
       ERun "kubectl cluster-info" r3].
Proof.
  unfold verify_cluster, os_getcwd, os_setenv, time_sleep, run_command,
    subprocess_run, print_step, print_success, print_error, print, ret, bind,
    value_of, world_after, events_of.
  cbn.
  destruct (exec "kubectl get nodes" _) as [r1 w1]; cbn.
  destruct (returncode r1 =? 0)%Z; cbn;
    destruct (exec "kubectl get pods -A" w1) as [r2 w2]; cbn;
    destruct (returncode r2 =? 0)%Z; cbn;
    destruct (exec "kubectl cluster-info" w2) as [r3 w3]; cbn;
    exists r1, r2, r3; auto.
Qed.

(** C5.  With [--destroy], whatever the other flags, [main] prints the
    teardown banner and issues the one command [terraform destroy
    -auto-approve], nothing else: no other stage, no other effect.  The
    process ends with status 0 when that command exits with status 0 and
    with status 1 otherwise. *)
Theorem main_destroy_only (args : Args) (w : World) :
  arg_destroy args = true ->
  let r := fst (exec "terraform destroy -auto-approve" w) in
  stages (events_of (main args) w) = ["Destroying Cluster"] /\
  effects (events_of (main args) w) = [ERun "terraform destroy -auto-approve" r] /\
  (returncode r = 0%Z -> exit_code (value_of (main args) w) = 0%Z) /\
  (returncode r <> 0%Z -> exit_code (value_of (main args) w) = 1%Z).
Proof.
  intros Hd r. unfold main. rewrite Hd.
  destruct (fatal_stage "Destroying Cluster" "terraform destroy -auto-approve"
              "Cluster destroyed" "Failed to destroy cluster" w)
    as (Hv & _ & Hs & He).
  fold r in Hv, He. unfold terraform_destroy. rewrite Hv.
  repeat split; try assumption.
  - intros Hz. now rewrite Hz.
  - intros Hnz. apply Z.eqb_neq in Hnz. now rewrite Hnz.
Qed.

(** C6.  With [--verify-only] and without [--destroy], [main] runs the
    verification stage alone: it sets [KUBECONFIG], sleeps 30 seconds and
    issues the three kubectl queries, and that is all it does.  The
    process ends with status 0 whatever the three queries return. *)
Theorem main_verify_only (args : Args) (w : World) :
  arg_destroy args = false ->
  arg_verify_only args = true ->
  exit_code (value_of (main args) w) = 0%Z /\
  stages (events_of (main args) w) = ["Verifying Cluster"] /\
  exists r1 r2 r3 : CommandResult,
    effects (events_of (main args) w) =
      [ESetenv "KUBECONFIG" (path_join (getcwd w) "kubeconfig.yaml");
       ESleep 30;
       ERun "kubectl get nodes" r1;
       ERun "kubectl get pods -A" r2;
       ERun "kubectl cluster-info" r3].
Proof.
  intros Hd Hv. unfold main. rewrite Hd, Hv.
  destruct (verify_cluster_run
              (ClusterSetup_init (arg_master_ip args) (arg_worker_ips args)
                 (arg_ssh_user args) (arg_ssh_key args)) w)
    as (r1 & r2 & r3 & Hval & Hst & Heff).
  rewrite Hval. repeat split; try assumption.
  exists r1, r2, r3. exact Heff.
Qed.

End Main.

(** ** The default run *)

Section DefaultRun.
Context {World : Type} `{System World}.

Lemma runs_in_order_last {A : Type} (banner : string) (m : M World A) (w : World) :
  stage banner m -> runs_in_order [banner] m w.
Proof.
  intros Hm. destruct (Hm w) as [[a Ha] Hs]. unfold runs_in_order.
  rewrite Ha, Hs. repeat split; auto. now exists [].
Qed.

Lemma runs_in_order_seq {A B : Type} (banner : string) (expected : list string)
    (m : M World A) (k : A -> M World B) (w : World) :
  stages (events_of m w) = [banner] ->
  expected <> [] ->
  (value_of m w = Exit 1 \/
   (exists x, value_of m w = Raise x) \/
   (exists a, value_of m w = Ret a /\
              runs_in_order expected (k a) (world_after m w))) ->
  runs_in_order (banner :: expected) (bind m k) w.
Proof.
  intros Hs Hne Hcases. unfold runs_in_order.
  rewrite value_of_bind, events_of_bind, stages_app, Hs.
  destruct Hcases as [He|[[x Hx]|(a & Ha & Hk)]].
  - rewrite He. cbn. repeat split.
    + now exists expected.
    + now right.
    + discriminate.
    + intros E. injection E as E. now symmetry in E.
  - rewrite Hx. cbn. repeat split.
    + now exists expected.
    + now right.
    + discriminate.
    + intros E. injection E as E. now symmetry in E.
  - rewrite Ha. destruct Hk as ([rest Hrest] & Hcode & Hiff). cbn [app]. repeat split.
    + exists rest. now rewrite Hrest.
    + exact Hcode.
    + intros Hz. f_equal. now apply Hiff.
    + intros E. injection E as E. now apply Hiff.
Qed.


Lemma terraform_validate_run (self : ClusterSetup) (w : World) :
  value_of (terraform_validate self) w =
    (if (returncode (fst (exec "terraform validate" w)) =? 0)%Z
     then Ret tt else Exit 1) /\
  world_after (terraform_validate self) w = snd (exec "terraform validate" w) /\
  stages (events_of (terraform_validate self) w) = ["Validating Terraform Configuration"].
Proof.
  destruct (fatal_stage "Validating Terraform Configuration" "terraform validate"
              "Terraform configuration is valid" "Terraform configuration is invalid" w)
    as (Hv & Hw & Hs & _).
  auto.
Qed.

Lemma terraform_plan_run (self : ClusterSetup) (w : World) :
  value_of (terraform_plan self) w =
    (if (returncode (fst (exec "terraform plan" w)) =? 0)%Z
     then Ret tt else Exit 1) /\
  world_after (terraform_plan self) w = snd (exec "terraform plan" w) /\
  stages (events_of (terraform_plan self) w) = ["Running Terraform Plan"].
Proof.
  destruct (fatal_stage "Running Terraform Plan" "terraform plan"
              "Terraform plan completed" "Terraform plan failed" w)
    as (Hv & Hw & Hs & _).
  auto.
Qed.

Lemma terraform_apply_run (self : ClusterSetup) (w : World) :
  value_of (terraform_apply self) w =
    (if (returncode (fst (exec "terraform apply -auto-approve" w)) =? 0)%Z
     then Ret tt else Exit 1) /\
  world_after (terraform_apply self) w = snd (exec "terraform apply -auto-approve" w) /\
  stages (events_of (terraform_apply self) w) = ["Applying Terraform Configuration"].
Proof.
  destruct (fatal_stage "Applying Terraform Configuration"
              "terraform apply -auto-approve"
              "Terraform apply completed" "Terraform apply failed" w)
    as (Hv & Hw & Hs & _).
  auto.
Qed.

(** A stage of the [fatal_stage] shape, in front of the rest of the run. *)
Lemma runs_in_order_fatal {B : Type} (banner : string) (expected : list string)
    (m : M World unit) (k : M World B) (c : Z) (w : World) :
  value_of m w = (if (c =? 0)%Z then Ret tt else Exit 1) ->
  stages (events_of m w) = [banner] ->
  expected <> [] ->
  runs_in_order expected k (world_after m w) ->
  runs_in_order (banner :: expected) (m ;; k) w.
Proof.
  intros Hv Hs Hne Hk. apply runs_in_order_seq; [exact Hs | exact Hne |].
  rewrite Hv. destruct (c =? 0)%Z; [right; right; exists tt; auto | now left].
Qed.

Lemma terraform_tail_in_order (self : ClusterSetup) (w : World) :
  runs_in_order
    [ "Initializing Terraform"; "Validating Terraform Configuration";
      "Running Terraform Plan"; "Applying Terraform Configuration";
      "Verifying Cluster" ]
    (terraform_init self ;; terraform_validate self ;; terraform_plan self ;;
     terraform_apply self ;; verify_cluster self) w.
Proof.
  assert (Hrest : forall w1,
    runs_in_order
      [ "Validating Terraform Configuration"; "Running Terraform Plan";
        "Applying Terraform Configuration"; "Verifying Cluster" ]
      (terraform_validate self ;; terraform_plan self ;;
       terraform_apply self ;; verify_cluster self) w1).
  { intros w1.
    destruct (terraform_validate_run self w1) as (Hv & _ & Hs).
    eapply runs_in_order_fatal; [exact Hv | exact Hs | discriminate |].
    destruct (terraform_plan_run self (world_after (terraform_validate self) w1))
      as (Hv2 & _ & Hs2).
    eapply runs_in_order_fatal; [exact Hv2 | exact Hs2 | discriminate |].
    match goal with |- runs_in_order _ _ ?w3 =>
      destruct (terraform_apply_run self w3) as (Hv3 & _ & Hs3) end.
    eapply runs_in_order_fatal; [exact Hv3 | exact Hs3 | discriminate |].
    apply runs_in_order_last, verify_cluster_stage. }
  destruct (terraform_init_run self w) as [Hs Hi].
  apply runs_in_order_seq; [exact Hs | discriminate |].
  destruct (chdir "cluster" w) as [w'|].
  - destruct Hi as [Hv _]. rewrite Hv.
    destruct (returncode (fst (exec "terraform init" w')) =? 0)%Z.
    + right; right. exists tt. split; [reflexivity | apply Hrest].
    + now left.
  - right; left. now exists "OSError".
Qed.

Lemma terraform_tail_succeeds (self : ClusterSetup) (w : World) :
  exit_code (value_of
    (terraform_init self ;; terraform_validate self ;; terraform_plan self ;;
     terraform_apply self ;; verify_cluster self) w) = 0%Z <->
  exists w', chdir "cluster" w = Some w' /\
             statuses terraform_commands w' = [0; 0; 0; 0]%Z.
Proof.
  rewrite value_of_bind.
  destruct (terraform_init_run self w) as [_ Hi].
  destruct (chdir "cluster" w) as [w'|].
  2:{ rewrite Hi. cbn. split; [discriminate | intros (w' & E & _); discriminate]. }
  destruct Hi as [Hv Hw]. rewrite Hv, Hw. clear Hv Hw.
  cbn [terraform_commands statuses].
  set (w1 := snd (exec "terraform init" w')).
  destruct (Z.eqb_spec (returncode (fst (exec "terraform init" w'))) 0) as [E1|N1].
  2:{ cbn. split; [discriminate|]. intros (w'' & Hs & Hst).
      injection Hs as <-. injection Hst as ?. contradiction. }
  cbv beta iota. rewrite value_of_bind.
  destruct (terraform_validate_run self w1) as (Hv & Hw & _). rewrite Hv, Hw.
  clear Hv Hw. set (w2 := snd (exec "terraform validate" w1)).
  destruct (Z.eqb_spec (returncode (fst (exec "terraform validate" w1))) 0) as [E2|N2].
  2:{ cbn. split; [discriminate|]. intros (w'' & Hs & Hst).
      injection Hs as <-. fold w1 in Hst. injection Hst as ? ?. contradiction. }
  cbv beta iota. rewrite value_of_bind.
  destruct (terraform_plan_run self w2) as (Hv & Hw & _). rewrite Hv, Hw.
  clear Hv Hw. set (w3 := snd (exec "terraform plan" w2)).
  destruct (Z.eqb_spec (returncode (fst (exec "terraform plan" w2))) 0) as [E3|N3].
  2:{ cbn. split; [discriminate|]. intros (w'' & Hs & Hst).
      injection Hs as <-. fold w1 w2 in Hst. injection Hst as ? ? ?. contradiction. }
  cbv beta iota. rewrite value_of_bind.
  destruct (terraform_apply_run self w3) as (Hv & Hw & _). rewrite Hv, Hw.
  clear Hv Hw.
  destruct (Z.eqb_spec (returncode (fst (exec "terraform apply -auto-approve" w3))) 0)
    as [E4|N4].
  2:{ cbn. split; [discriminate|]. intros (w'' & Hs & Hst).
      injection Hs as <-. fold w1 w2 w3 in Hst. injection Hst as ? ? ? ?.
      contradiction. }
  cbv beta iota.
  destruct (verify_cluster_run self (snd (exec "terraform apply -auto-approve" w3)))
    as (r1 & r2 & r3 & Hval & _).
  rewrite Hval. cbn [exit_code]. split; [intros _ | reflexivity].
  exists w'. split; [reflexivity|]. fold w1 w2 w3. now rewrite E1, E2, E3, E4.
Qed.

End DefaultRun.

Section Scenario.
Context {World : Type} `{System World}.


Lemma check_prerequisites_finds_key (self : ClusterSetup) (w : World) :
  value_of (check_prerequisites self) w = Ret true ->
  path_exists (ssh_key_path self) (world_after (check_prerequisites self) w) = true.
Proof.
  destruct (check_prerequisites_run self w) as (Hv & Hw & _).
  rewrite Hv, Hw. intros E. injection E as E. now apply andb_true_iff in E.
Qed.




End Scenario.

(** ** The script in the laboratory *)

Lemma configure_firewall_inactive_skips_witness :
  commands (events_of (configure_firewall default_setup) (lab true ufw_off_answer)) =
  [ssh_cmd default_setup "10.211.55.28" "sudo ufw status"].
Proof.
  refine (proj2 (configure_firewall_inactive_skips default_setup
                   (lab true ufw_off_answer) _)).
  exists "Status: ", "Inactive", nl. split; reflexivity.
Defined.


Lemma main_destroy_only_witness :
  arg_destroy destroy_args = true /\
  exit_code (value_of (main destroy_args) (lab true no_terraform_answer)) = 1%Z /\
  exit_code (value_of (main destroy_args) (lab true healthy_answer)) = 0%Z.
Proof.
  split; [reflexivity|]. split.
  - destruct (main_destroy_only destroy_args (lab true no_terraform_answer) eq_refl)
      as (_ & _ & _ & Hfail).
    apply Hfail. vm_compute. discriminate.
  - destruct (main_destroy_only destroy_args (lab true healthy_answer) eq_refl)
      as (_ & _ & Hok & _).
    apply Hok. reflexivity.
Defined.

Lemma main_verify_only_witness :
  returncode (lab_answer (lab true no_kubectl_answer) "kubectl get nodes") = 127%Z /\
  exit_code (value_of (main verify_only_args) (lab true no_kubectl_answer)) = 0%Z.
Proof.
  split; [reflexivity|].
  exact (proj1 (main_verify_only verify_only_args (lab true no_kubectl_answer)
                  eq_refl eq_refl)).
Defined.

Lemma generate_ssh_key_idempotent_witness :
  path_exists (ssh_key_path default_setup) (lab true healthy_answer) = true /\
  world_after (generate_ssh_key default_setup ;; generate_ssh_key default_setup)
    (lab true healthy_answer) = lab true healthy_answer.
Proof.
  split; [reflexivity|].
  destruct (generate_ssh_key_idempotent (H := Lab_System) default_setup
              (lab true healthy_answer) eq_refl)
    as (_ & Htwice & _).
  unfold world_after. rewrite Htwice. reflexivity.
Defined.

(** Some runs of the checks, for the record. *)

Example connectivity_flaky_worker :
  value_of (test_ssh_connections default_setup) (lab true flaky_answer) = Ret false.
Proof. vm_compute. reflexivity. Qed.

Example connectivity_healthy :
  value_of (test_ssh_connections default_setup) (lab true healthy_answer) = Ret true.
Proof. vm_compute. reflexivity. Qed.

Example prerequisites_without_kubectl :
  value_of (check_prerequisites default_setup) (lab true no_kubectl_answer) = Ret true.
Proof. vm_compute. reflexivity. Qed.

Example prerequisites_without_key :
  value_of (check_prerequisites default_setup) (lab false healthy_answer) = Ret false.
Proof. vm_compute. reflexivity. Qed.

Example all_nodes_repeats_leader :
  all_nodes (ClusterSetup_init (World := Lab) "10.0.0.1" ["10.0.0.1"; "10.0.0.2"] "hkn" "k") =
  ["10.0.0.1"; "10.0.0.1"; "10.0.0.2"].
Proof. reflexivity. Qed.

Example lower_folds_ascii : lower "Status: INACTIVE" = "status: inactive".
Proof. reflexivity. Qed.

(** * Further properties of the script *)

(** ** Commands issued by the per-host stages *)

Section Loops.
Context {World : Type} `{System World}.
Variable self : ClusterSetup.

Lemma issues_if {A : Type} (b : bool) (m1 m2 : M World A) (cmds : list string) :
  issues m1 cmds -> issues m2 cmds -> issues (if b then m1 else m2) cmds.
Proof. now destruct b. Qed.

Lemma issues_stage {A : Type} (banner : string) (m : M World A) (cmds : list string) :
  issues m cmds -> issues (print_step banner ;; m) cmds.
Proof.
  intros Hm. change cmds with ([] ++ cmds)%list.
  apply issues_bind; [apply issues_print | intros _; exact Hm].
Qed.

(** X2.  Key distribution always returns, and it issues exactly one
    [ssh-copy-id] per host of [all_nodes], leader first: a host on which
    the copy fails does not stop the loop and is not retried. *)
Theorem copy_ssh_keys_one_per_node (w : World) :
  value_of (copy_ssh_keys self) w = Ret tt /\
  commands (events_of (copy_ssh_keys self) w) =
    map (ssh_copy_id_cmd self) (all_nodes self).
Proof.
  assert (Hi : issues (copy_ssh_keys self) (map (ssh_copy_id_cmd self) (all_nodes self))).
  { unfold copy_ssh_keys. apply issues_stage. rewrite <- flat_map_singleton.
    apply issues_for_each. intros node.
    change [ssh_copy_id_cmd self node]
      with ([] ++ [ssh_copy_id_cmd self node] ++ [])%list.
    apply issues_bind; [apply issues_print | intros _].
    apply issues_bind; [apply issues_run_command | intros r].
    apply issues_if; apply issues_print. }
  destruct (Hi w) as [[[] Hv] Hc]. now split.
Qed.

(** X3.  Whatever exit status its commands return (their output being
    text, as everywhere in this model), node preparation returns, and on
    every host of [all_nodes], in order, it has issued the same four
    commands: package index update, installation of curl and jq,
    swapoff, and the edit of /etc/fstab.  No exit status stops the loop
    or skips a command. *)
Theorem prepare_nodes_four_per_node (w : World) :
  value_of (prepare_nodes self) w = Ret tt /\
  commands (events_of (prepare_nodes self) w) =
    flat_map (prepare_cmds self) (all_nodes self) /\
  length (commands (events_of (prepare_nodes self) w)) =
    (4 * length (all_nodes self))%nat.
Proof.
  assert (Hi : issues (prepare_nodes self) (flat_map (prepare_cmds self) (all_nodes self))).
  { unfold prepare_nodes. apply issues_stage.
    apply issues_for_each. intros node. unfold prepare_cmds, ssh_command.
    change [ssh_cmd self node "sudo apt-get update -qq";
            ssh_cmd self node "sudo apt-get install -y curl jq";
            ssh_cmd self node "sudo swapoff -a";
            ssh_cmd self node "sudo sed -i '/ swap / s/^/#/' /etc/fstab"]
      with ([] ++ [] ++ [ssh_cmd self node "sudo apt-get update -qq"] ++
            [] ++ [ssh_cmd self node "sudo apt-get install -y curl jq"] ++
            [] ++ [ssh_cmd self node "sudo swapoff -a"] ++
            [ssh_cmd self node "sudo sed -i '/ swap / s/^/#/' /etc/fstab"] ++ [])%list.
    repeat (apply issues_bind;
            [first [apply issues_print | apply issues_run_command] | intros ?]).
    apply issues_print. }
  destruct (Hi w) as [[[] Hv] Hc]. repeat split; [exact Hv | exact Hc |].
  rewrite Hc. clear. induction (all_nodes self) as [|node nodes IH]; [reflexivity|].
  cbn [flat_map]. rewrite length_app, IH. cbn [prepare_cmds length]. lia.
Qed.

End Loops.

(** ** Passwordless sudo *)

Section Sudoers.
Context {World : Type} `{System World}.
Variable self : ClusterSetup.

Lemma sudoers_node (node : string) (w : World) :
  let body :=
    print Plain (nl ++ "Configuring sudo on " ++ node ++ "...") ;;
    r <- ssh_command self node (sudoers_cmd self) false ;
    if (returncode r =? 0)%Z then
      ssh_command self node ("sudo chmod 0440 /etc/sudoers.d/" ++ ssh_user self) false ;;
      t <- ssh_command self node "sudo ls /root" false ;
      if (returncode t =? 0)%Z then
        print_success ("Passwordless sudo configured on " ++ node)
      else
        print_error ("Sudo test failed on " ++ node)
    else
      print_error ("Failed to configure sudo on " ++ node) in
  exists answers : CommandResult * CommandResult * CommandResult,
    value_of body w = Ret tt /\
    runs (events_of body w) = sudoers_block self node answers.
Proof.
  cbv zeta.
  rewrite value_of_bind_print, events_of_bind_print.
  rewrite value_of_bind_ssh, events_of_bind_ssh.
  set (tee := fst (exec (ssh_cmd self node (sudoers_cmd self)) w)).
  set (w1 := snd (exec (ssh_cmd self node (sudoers_cmd self)) w)).
  destruct (returncode tee =? 0)%Z eqn:Etee.
  - rewrite value_of_bind_ssh, events_of_bind_ssh.
    set (chmod := fst (exec _ w1)). set (w2 := snd (exec _ w1)).
    rewrite value_of_bind_ssh, events_of_bind_ssh.
    set (test := fst (exec _ w2)).
    exists (tee, chmod, test). unfold sudoers_block. rewrite Etee.
    destruct (returncode test =? 0)%Z; split; reflexivity.
  - exists (tee, tee, tee). unfold sudoers_block. rewrite Etee.
    split; reflexivity.
Qed.

Lemma sudoers_loop (nodes : list string) (w : World) :
  let loop :=
    for_each nodes (fun node =>
      print Plain (nl ++ "Configuring sudo on " ++ node ++ "...") ;;
      r <- ssh_command self node (sudoers_cmd self) false ;
      if (returncode r =? 0)%Z then
        ssh_command self node ("sudo chmod 0440 /etc/sudoers.d/" ++ ssh_user self) false ;;
        t <- ssh_command self node "sudo ls /root" false ;
        if (returncode t =? 0)%Z then
          print_success ("Passwordless sudo configured on " ++ node)
        else
          print_error ("Sudo test failed on " ++ node)
      else
        print_error ("Failed to configure sudo on " ++ node)) in
  exists answers : list (CommandResult * CommandResult * CommandResult),
    length answers = length nodes /\
    value_of loop w = Ret tt /\
    runs (events_of loop w) =
      flat_map (fun na => sudoers_block self (fst na) (snd na)) (combine nodes answers).
Proof.
  cbv zeta. revert w. induction nodes as [|node nodes IH]; intros w.
  - exists []. repeat split.
  - cbn [for_each].
    destruct (sudoers_node node w) as (a & Hv & Hr). cbv zeta in Hv, Hr.
    match goal with
    | Hv : value_of ?b w = Ret tt |- _ =>
        destruct (IH (world_after b w)) as (answers & Hlen & Hval & Hruns)
    end.
    exists (a :: answers).
    rewrite value_of_bind, events_of_bind, runs_app, Hv, Hr, Hval, Hruns.
    cbn [length combine flat_map fst snd]. rewrite Hlen. repeat split.
Qed.

(** X4.  Whatever exit status its commands return (their output being
    text, as everywhere in this model), the sudo stage returns.  On
    every host of [all_nodes], in order, it first writes the rule file;
    it sets the permissions of the file and tries the rule on that host
    only when writing it exited with status 0, and goes on to the next
    host whatever the status was. *)
Theorem setup_sudoers_per_node (w : World) :
  exists answers : list (CommandResult * CommandResult * CommandResult),
    length answers = length (all_nodes self) /\
    value_of (setup_sudoers self) w = Ret tt /\
    runs (events_of (setup_sudoers self) w) =
      flat_map (fun na => sudoers_block self (fst na) (snd na))
               (combine (all_nodes self) answers).
Proof.
  destruct (sudoers_loop (all_nodes self) w) as (answers & Hlen & Hval & Hruns).
  cbv zeta in Hval, Hruns.
  exists answers. unfold setup_sudoers, print_step.
  rewrite value_of_bind_print, events_of_bind_print. cbn [runs].
  repeat split; assumption.
Qed.

End Sudoers.

(** ** Key generation and terraform init, off the happy path *)

Section EdgeCases.
Context {World : Type} `{System World}.
Variable self : ClusterSetup.

(** X6.  Without a key file, key generation creates the parent directory
    of the key path and then issues [ssh-keygen] once; it returns when
    that exits with status 0 and calls [sys.exit(1)] otherwise.  When the
    directory cannot be created the exception escapes and no command is
    issued. *)
Theorem generate_ssh_key_missing (w : World) :
  path_exists (ssh_key_path self) w = false ->
  match mkdir_parents (path_parent (ssh_key_path self)) w with
  | None =>
      generate_ssh_key self w = (Raise "OSError", w, [EPrint Step "Generating SSH Key"])
  | Some w1 =>
      let child := fst (exec (ssh_keygen_cmd self) w1) in
      value_of (generate_ssh_key self) w =
        (if (returncode child =? 0)%Z then Ret tt else Exit 1) /\
      world_after (generate_ssh_key self) w = snd (exec (ssh_keygen_cmd self) w1) /\
      effects (events_of (generate_ssh_key self) w) =
        [EMkdir (path_parent (ssh_key_path self)); ERun (ssh_keygen_cmd self) child]
  end.
Proof.
  intros Hk.
  unfold generate_ssh_key, os_path_exists, os_mkdir_parents, run_command,
    subprocess_run, print_step, print_success, print_error, print, sys_exit,
    ret, bind, value_of, world_after, events_of.
  rewrite Hk.
  destruct (mkdir_parents (path_parent (ssh_key_path self)) w) as [w1|]; [|reflexivity].
  destruct (exec (ssh_keygen_cmd self) w1) as [r w2]; cbn.
  destruct (returncode r =? 0)%Z eqn:E; cbn; rewrite ?E; cbn; auto.
Qed.

(** X9.  [terraform_init] enters the directory [cluster] before it
    issues [terraform init].  When the directory cannot be entered the
    exception escapes: no terraform command is issued and the process
    ends with status 1. *)
Theorem terraform_init_enters_cluster (w : World) :
  match chdir "cluster" w with
  | None =>
      effects (events_of (terraform_init self) w) = [] /\
      exit_code (value_of (terraform_init self) w) = 1%Z
  | Some w1 =>
      effects (events_of (terraform_init self) w) =
        [EChdir "cluster"; ERun "terraform init" (fst (exec "terraform init" w1))] /\
      exit_code (value_of (terraform_init self) w) =
        (if (returncode (fst (exec "terraform init" w1)) =? 0)%Z then 0 else 1)%Z
  end.
Proof.
  unfold terraform_init, os_chdir, run_command, subprocess_run, print_step,
    print_success, print_error, print, sys_exit, ret, bind, value_of,
    world_after, events_of.
  destruct (chdir "cluster" w) as [w1|]; cbn; [|auto].
  destruct (exec "terraform init" w1) as [r w2]; cbn.
  destruct (returncode r =? 0)%Z eqn:E; cbn; rewrite ?E; cbn; auto.
Qed.

End EdgeCases.

(** ** The build path of [main] *)

Section Build.
Context {World : Type} `{System World}.

Lemma value_of_exit {A : Type} (code : Z) (w : World) :
  value_of (@sys_exit World A code) w = Exit code.
Proof. reflexivity. Qed.

Lemma world_after_exit {A : Type} (code : Z) (w : World) :
  world_after (@sys_exit World A code) w = w.
Proof. reflexivity. Qed.

Lemma events_of_exit {A : Type} (code : Z) (w : World) :
  events_of (@sys_exit World A code) w = [].
Proof. reflexivity. Qed.

Lemma optional_stage_returns (banner : string) (skip : bool) (m : M World unit)
    (w : World) :
  stage banner m ->
  value_of (if negb skip then m else ret tt) w = Ret tt /\
  stages (events_of (if negb skip then m else ret tt) w) =
    (if skip then [] else [banner]).
Proof.
  intros Hm. destruct skip; cbn [negb]; [now split|].
  destruct (Hm w) as [[[] Hv] Hs]. now split.
Qed.

(** How a run without [--destroy] and [--verify-only] ends: at the
    prerequisite gate, at the connectivity gate, or in the terraform
    phase. *)
Lemma main_build_cases (args : Args) (w : World) :
  arg_destroy args = false -> arg_verify_only args = false ->
  let self := ClusterSetup_init (arg_master_ip args) (arg_worker_ips args)
                (arg_ssh_user args) (arg_ssh_key args) in
  let prep := if negb (arg_skip_prep args) then prepare_nodes self else ret tt in
  let fw := if negb (arg_skip_firewall args) then configure_firewall self else ret tt in
  let w1 := world_after (check_prerequisites self) w in
  let w2 := world_after (generate_ssh_key self) w1 in
  let w3 := world_after (copy_ssh_keys self) w2 in
  let w4 := world_after (test_ssh_connections self) w3 in
  let w5 := world_after (setup_sudoers self) w4 in
  let w6 := world_after prep w5 in
  let w7 := world_after fw w6 in
  let upto_connectivity :=
    (events_of (check_prerequisites self) w ++
     events_of (generate_ssh_key self) w1 ++
     events_of (copy_ssh_keys self) w2 ++
     events_of (test_ssh_connections self) w3)%list in
  (value_of (check_prerequisites self) w = Ret false /\
   main args w = (Exit 1, w1, events_of (check_prerequisites self) w)) \/
  (value_of (check_prerequisites self) w = Ret true /\
   value_of (test_ssh_connections self) w3 = Ret false /\
   main args w = (Exit 1, w4, upto_connectivity)) \/
  (value_of (check_prerequisites self) w = Ret true /\
   value_of (test_ssh_connections self) w3 = Ret true /\
   main args w =
     (value_of (terraform_phase self) w7,
      world_after (terraform_phase self) w7,
      (upto_connectivity ++
       events_of (setup_sudoers self) w4 ++
       events_of prep w5 ++
       events_of fw w6 ++
       events_of (terraform_phase self) w7)%list)).
Proof.
  intros Hd Hv self prep fw w1 w2 w3 w4 w5 w6 w7 upto.
  unfold main. rewrite Hd, Hv. fold self. fold prep. fold fw.
  set (tv := value_of (terraform_phase self) w7).
  set (tw := world_after (terraform_phase self) w7).
  set (te := events_of (terraform_phase self) w7).
  match goal with |- context [?m w = (Exit 1, w1, _)] => rewrite (run_eta m w) end.
  rewrite value_of_bind, world_after_bind, events_of_bind.
  destruct (check_prerequisites_run self w) as (Hcv & _ & _).
  destruct (value_of (check_prerequisites self) w) as [ok| |] eqn:Hcp;
    try discriminate.
  clear Hcv. fold w1. cbv beta iota.
  rewrite value_of_bind, world_after_bind, events_of_bind.
  destruct ok; cbn [negb]; cbv beta iota.
  2:{ left. rewrite value_of_exit, world_after_exit, events_of_exit.
      cbv beta iota. now rewrite !app_nil_r. }
  right. rewrite value_of_ret, world_after_ret, events_of_ret. cbv beta iota.
  pose proof (check_prerequisites_finds_key self w Hcp) as Hkey. fold w1 in Hkey.
  pose proof (generate_ssh_key_present self w1 Hkey) as Hg.
  assert (Hgv : value_of (generate_ssh_key self) w1 = Ret tt)
    by (unfold value_of; now rewrite Hg).
  rewrite value_of_bind, world_after_bind, events_of_bind, Hgv. fold w2.
  cbv beta iota.
  destruct (copy_ssh_keys_stage self w2) as [[[] Hkv] _].
  rewrite value_of_bind, world_after_bind, events_of_bind, Hkv. fold w3.
  cbv beta iota.
  destruct (test_ssh_connections_stage self w3) as [[b Hb] _].
  rewrite value_of_bind, world_after_bind, events_of_bind, Hb. fold w4.
  cbv beta iota.
  rewrite value_of_bind, world_after_bind, events_of_bind.
  destruct b; cbn [negb]; cbv beta iota.
  2:{ left. rewrite value_of_exit, world_after_exit, events_of_exit.
      cbv beta iota. subst upto. cbn [app]. rewrite !app_nil_r.
      repeat split; reflexivity. }
  right. rewrite value_of_ret, world_after_ret, events_of_ret. cbv beta iota.
  destruct (setup_sudoers_stage self w4) as [[[] Hsv] _].
  rewrite value_of_bind, world_after_bind, events_of_bind, Hsv. fold w5.
  cbv beta iota.
  destruct (optional_stage_returns "Preparing Nodes" (arg_skip_prep args)
              (prepare_nodes self) w5 (prepare_nodes_stage self)) as [Hpv _].
  fold prep in Hpv.
  rewrite value_of_bind, world_after_bind, events_of_bind, Hpv. fold w6.
  cbv beta iota.
  destruct (optional_stage_returns "Configuring Firewall" (arg_skip_firewall args)
              (configure_firewall self) w6 (configure_firewall_stage self)) as [Hfv _].
  fold fw in Hfv.
  rewrite value_of_bind, world_after_bind, events_of_bind, Hfv. fold w7.
  cbv beta iota.
  subst upto tv tw te. cbn [app]. unfold terraform_phase.
  repeat split. now rewrite <- !app_assoc.
Qed.

End Build.

Section BuildFacts.
Context {World : Type} `{System World}.

Lemma commands_effects (tr : list event) : commands (effects tr) = commands tr.
Proof.
  unfold commands. induction tr as [|e tr IH]; [reflexivity|].
  destruct e; cbn [effects runs map fst]; now rewrite ?IH.
Qed.

Lemma stages_effects (tr : list event) : stages (effects tr) = [].
Proof.
  induction tr as [|e tr IH]; [reflexivity|]. destruct e; cbn [effects stages]; exact IH.
Qed.

Lemma check_prerequisites_effects (self : ClusterSetup) (w : World) :
  effects (events_of (check_prerequisites self) w) =
  [ERun "terraform version" (fst (exec "terraform version" w));
   ERun "kubectl version --client"
     (fst (exec "kubectl version --client" (snd (exec "terraform version" w))))].
Proof.
  unfold check_prerequisites, run_command, subprocess_run, print_step,
    print_success, print_error, print_warning, print, os_path_exists, ret,
    bind, value_of, world_after, events_of.
  destruct (exec "terraform version" w) as [t w1]; cbn.
  destruct (returncode t =? 0)%Z; cbn;
    destruct (exec "kubectl version --client" w1) as [k w2]; cbn;
    destruct (returncode k =? 0)%Z; cbn;
    destruct (path_exists (ssh_key_path self) w2); cbn; auto.
Qed.

Lemma generate_ssh_key_banner (self : ClusterSetup) (w : World) :
  stages (events_of (generate_ssh_key self) w) = ["Generating SSH Key"].
Proof.
  unfold generate_ssh_key, os_path_exists, os_mkdir_parents, run_command,
    subprocess_run, print_step, print_success, print_error, print_warning,
    print, sys_exit, ret, bind, events_of.
  destruct (path_exists (ssh_key_path self) w); [reflexivity|].
  destruct (mkdir_parents (path_parent (ssh_key_path self)) w) as [w1|]; [|reflexivity].
  destruct (exec (ssh_keygen_cmd self) w1) as [r w2]; cbn.
  destruct (returncode r =? 0)%Z eqn:E; cbn; rewrite ?E; reflexivity.
Qed.

(** X7.  On the build path (neither [--destroy] nor [--verify-only]), a
    failed prerequisite check ends the process with status 1 before
    anything else is done: the only banner is the one of the check, and
    the only effects of the whole run are the two local version probes.
    No host is contacted, no key is generated, no directory is entered. *)
Theorem main_stops_at_prerequisites (args : Args) (w : World) :
  arg_destroy args = false -> arg_verify_only args = false ->
  let self := ClusterSetup_init (arg_master_ip args) (arg_worker_ips args)
                (arg_ssh_user args) (arg_ssh_key args) in
  value_of (check_prerequisites self) w = Ret false ->
  exit_code (value_of (main args) w) = 1%Z /\
  stages (events_of (main args) w) = ["Checking Prerequisites"] /\
  effects (events_of (main args) w) =
    [ERun "terraform version" (fst (exec "terraform version" w));
     ERun "kubectl version --client"
       (fst (exec "kubectl version --client" (snd (exec "terraform version" w))))].
Proof.
  intros Hd Hv self Hfail.
  destruct (main_build_cases args w Hd Hv) as [[_ Hrun]|[[Hok _]|[Hok _]]];
    fold self in Hrun || fold self in Hok; try congruence.
  unfold value_of, events_of. rewrite Hrun. cbn [fst snd exit_code].
  destruct (check_prerequisites_run self w) as (_ & _ & Hs).
  repeat split; [exact Hs | apply check_prerequisites_effects].
Qed.

End BuildFacts.

Section BuildOrder.
Context {World : Type} `{System World}.

Lemma terraform_phase_in_order (self : ClusterSetup) (w : World) :
  runs_in_order
    [ "Initializing Terraform"; "Validating Terraform Configuration";
      "Running Terraform Plan"; "Applying Terraform Configuration";
      "Verifying Cluster" ]
    (terraform_phase self) w.
Proof. apply terraform_tail_in_order. Qed.

Lemma terraform_phase_succeeds (self : ClusterSetup) (w : World) :
  exit_code (value_of (terraform_phase self) w) = 0%Z <->
  exists w', chdir "cluster" w = Some w' /\
             statuses terraform_commands w' = [0; 0; 0; 0]%Z.
Proof. apply terraform_tail_succeeds. Qed.

Lemma main_build_core (args : Args) (w : World) :
  arg_destroy args = false -> arg_verify_only args = false ->
  let self := ClusterSetup_init (arg_master_ip args) (arg_worker_ips args)
                (arg_ssh_user args) (arg_ssh_key args) in
  (exists rest, expected_stages args = (stages (events_of (main args) w) ++ rest)%list) /\
  (exit_code (value_of (main args) w) = 0%Z \/ exit_code (value_of (main args) w) = 1%Z) /\
  (exit_code (value_of (main args) w) = 0%Z <->
   stages (events_of (main args) w) = expected_stages args) /\
  (exit_code (value_of (main args) w) = 0%Z <-> run_succeeds args self w).
Proof.
  intros Hd Hv self. unfold run_succeeds, before_terraform_with, before_connectivity.
  destruct (main_build_cases args w Hd Hv)
    as [[Hno Hrun]|[(Hok & Hconn & Hrun)|(Hok & Hconn & Hrun)]];
    fold self in Hno || fold self in Hok; fold self in Hrun; try fold self in Hconn;
    pose proof (f_equal (fun t => fst (fst t)) Hrun) as Hmv;
    pose proof (f_equal snd Hrun) as Hme;
    cbn [fst snd] in Hmv, Hme;
    change (fst (fst (main args w))) with (value_of (main args) w) in Hmv;
    change (snd (main args w)) with (events_of (main args) w) in Hme;
    rewrite Hmv, Hme; cbn [exit_code].
  - destruct (check_prerequisites_run self w) as (_ & _ & ->).
    unfold expected_stages. split; [eexists; reflexivity|].
    split; [now right|]. split; split; try discriminate.
    + intros [E _]. congruence.
  - rewrite !stages_app.
    destruct (check_prerequisites_run self w) as (_ & _ & ->).
    rewrite generate_ssh_key_banner.
    match goal with |- context [events_of (copy_ssh_keys self) ?w2] =>
      destruct (copy_ssh_keys_stage self w2) as [_ ->] end.
    match goal with |- context [events_of (test_ssh_connections self) ?w3] =>
      destruct (test_ssh_connections_stage self w3) as [_ ->] end.
    unfold expected_stages. split; [eexists; reflexivity|].
    split; [now right|]. split; split; try discriminate.
    intros (_ & E & _). congruence.
  - rewrite !stages_app.
    destruct (check_prerequisites_run self w) as (_ & _ & ->).
    rewrite generate_ssh_key_banner.
    match goal with |- context [events_of (copy_ssh_keys self) ?w2] =>
      destruct (copy_ssh_keys_stage self w2) as [_ ->] end.
    match goal with |- context [events_of (test_ssh_connections self) ?w3] =>
      destruct (test_ssh_connections_stage self w3) as [_ ->] end.
    match goal with |- context [events_of (setup_sudoers self) ?w4] =>
      destruct (setup_sudoers_stage self w4) as [_ ->] end.
    match goal with |- context [events_of (if negb (arg_skip_prep args) then _ else _) ?w5] =>
      destruct (optional_stage_returns "Preparing Nodes" (arg_skip_prep args)
                  (prepare_nodes self) w5 (prepare_nodes_stage self)) as [_ ->] end.
    match goal with |- context [events_of (if negb (arg_skip_firewall args) then _ else _) ?w6] =>
      destruct (optional_stage_returns "Configuring Firewall" (arg_skip_firewall args)
                  (configure_firewall self) w6 (configure_firewall_stage self))
        as [_ ->] end.
    match goal with |- context [events_of (terraform_phase self) ?w7] =>
      destruct (terraform_phase_in_order self w7) as ([rest Hrest] & Hcode & Hiff);
      pose proof (terraform_phase_succeeds self w7) as Hsucc end.
    unfold expected_stages. cbn [app].
    split; [exists rest; rewrite Hrest, <- !app_assoc; reflexivity|].
    split; [exact Hcode|]. split.
    + rewrite Hiff. split.
      * intros ->. reflexivity.
      * intros E. injection E as E.
        apply app_inv_head in E. apply app_inv_head in E. exact E.
    + rewrite Hsucc. split; [intros Ht; repeat split; assumption | intros (_ & _ & Ht); exact Ht].
Qed.

(** X5.  On the build path the two skip flags remove their stage and
    nothing else.  The banners printed are an initial part of the fixed
    sequence without the skipped stages; a skipped stage is never
    started; the process ends with status 0 or 1, with 0 exactly when
    the whole remaining sequence was run, and exactly when the
    prerequisite check, the connectivity check and the four terraform
    invocations succeed. *)
Theorem main_skip_flags (args : Args) (w : World) :
  arg_destroy args = false -> arg_verify_only args = false ->
  let self := ClusterSetup_init (arg_master_ip args) (arg_worker_ips args)
                (arg_ssh_user args) (arg_ssh_key args) in
  let code := exit_code (value_of (main args) w) in
  let ran := stages (events_of (main args) w) in
  (exists rest, expected_stages args = (ran ++ rest)%list) /\
  (code = 0%Z \/ code = 1%Z) /\
  (code = 0%Z <-> ran = expected_stages args) /\
  (code = 0%Z <-> run_succeeds args self w) /\
  (arg_skip_prep args = true -> ~ In "Preparing Nodes" ran) /\
  (arg_skip_firewall args = true -> ~ In "Configuring Firewall" ran).
Proof.
  intros Hd Hv self code ran.
  destruct (main_build_core args w Hd Hv) as ([rest Hrest] & Hcode & Hiff & Hsucc).
  fold self in Hsucc. fold code in Hcode, Hiff, Hsucc. fold ran in Hrest, Hiff.
  split; [now exists rest|]. split; [exact Hcode|]. split; [exact Hiff|].
  split; [exact Hsucc|]. split.
  - intros Hskip Hin.
    assert (Hall : In "Preparing Nodes" (expected_stages args))
      by (rewrite Hrest; apply in_or_app; now left).
    unfold expected_stages in Hall. rewrite Hskip in Hall.
    destruct (arg_skip_firewall args); cbn in Hall;
      repeat (destruct Hall as [Hall|Hall]; [discriminate|]); exact Hall.
  - intros Hskip Hin.
    assert (Hall : In "Configuring Firewall" (expected_stages args))
      by (rewrite Hrest; apply in_or_app; now left).
    unfold expected_stages in Hall. rewrite Hskip in Hall.
    destruct (arg_skip_prep args); cbn in Hall;
      repeat (destruct Hall as [Hall|Hall]; [discriminate|]); exact Hall.
Qed.

End BuildOrder.

(** ** Where a build stops *)

Section StopPoint.
Context {World : Type} `{System World}.

(** The terraform phase prints the banner of init, and one more banner
    for every terraform command that exited with status 0 before the
    first one that did not. *)
Lemma terraform_phase_stop (self : ClusterSetup) (w : World) :
  stages (events_of (terraform_phase self) w) =
  match chdir "cluster" w with
  | None => ["Initializing Terraform"]
  | Some w' =>
      firstn (S (leading_ok (statuses terraform_commands w')))
        [ "Initializing Terraform"; "Validating Terraform Configuration";
          "Running Terraform Plan"; "Applying Terraform Configuration";
          "Verifying Cluster" ]
  end.
Proof.
  unfold terraform_phase.
  rewrite events_of_bind, stages_app.
  destruct (terraform_init_run self w) as [Hs Hi]. rewrite Hs.
  destruct (chdir "cluster" w) as [w'|].
  2:{ now rewrite Hi. }
  destruct Hi as [Hv Hw]. rewrite Hv, Hw. clear Hs Hv Hw.
  cbn [terraform_commands statuses leading_ok].
  set (w1 := snd (exec "terraform init" w')).
  destruct (returncode (fst (exec "terraform init" w')) =? 0)%Z; [|reflexivity].
  cbv beta iota. rewrite events_of_bind, stages_app.
  destruct (terraform_validate_run self w1) as (Hv & Hw & Hs). rewrite Hv, Hw, Hs.
  clear Hv Hw Hs. set (w2 := snd (exec "terraform validate" w1)).
  destruct (returncode (fst (exec "terraform validate" w1)) =? 0)%Z; [|reflexivity].
  cbv beta iota. rewrite events_of_bind, stages_app.
  destruct (terraform_plan_run self w2) as (Hv & Hw & Hs). rewrite Hv, Hw, Hs.
  clear Hv Hw Hs. set (w3 := snd (exec "terraform plan" w2)).
  destruct (returncode (fst (exec "terraform plan" w2)) =? 0)%Z; [|reflexivity].
  cbv beta iota. rewrite events_of_bind, stages_app.
  destruct (terraform_apply_run self w3) as (Hv & Hw & Hs). rewrite Hv, Hw, Hs.
  clear Hv Hw Hs.
  destruct (returncode (fst (exec "terraform apply -auto-approve" w3)) =? 0)%Z;
    [|reflexivity].
  cbv beta iota.
  destruct (verify_cluster_stage self (snd (exec "terraform apply -auto-approve" w3)))
    as [_ Hs].
  rewrite Hs. reflexivity.
Qed.

(** The banners of a build, gate by gate. *)
Lemma main_build_stop (args : Args) (w : World) :
  arg_destroy args = false -> arg_verify_only args = false ->
  let self := ClusterSetup_init (arg_master_ip args) (arg_worker_ips args)
                (arg_ssh_user args) (arg_ssh_key args) in
  let ran := stages (events_of (main args) w) in
  (value_of (check_prerequisites self) w = Ret false ->
   ran = ["Checking Prerequisites"]) /\
  (value_of (check_prerequisites self) w = Ret true ->
   value_of (test_ssh_connections self) (before_connectivity self w) = Ret false ->
   ran = ["Checking Prerequisites"; "Generating SSH Key";
          "Copying SSH Keys to Nodes"; "Testing SSH Connections"]) /\
  (value_of (check_prerequisites self) w = Ret true ->
   value_of (test_ssh_connections self) (before_connectivity self w) = Ret true ->
   ran = ([ "Checking Prerequisites"; "Generating SSH Key";
            "Copying SSH Keys to Nodes"; "Testing SSH Connections";
            "Setting up Passwordless Sudo" ] ++
          (if arg_skip_prep args then [] else ["Preparing Nodes"]) ++
          (if arg_skip_firewall args then [] else ["Configuring Firewall"]) ++
          stages (events_of (terraform_phase self)
                    (before_terraform_with args self w)))%list).
Proof.
  intros Hd Hv self ran. subst ran.
  unfold before_terraform_with, before_connectivity.
  destruct (main_build_cases args w Hd Hv)
    as [[Hno Hrun]|[(Hok & Hconn & Hrun)|(Hok & Hconn & Hrun)]];
    fold self in Hno || fold self in Hok; fold self in Hrun; try fold self in Hconn;
    pose proof (f_equal snd Hrun) as Hme; cbn [snd] in Hme;
    change (snd (main args w)) with (events_of (main args) w) in Hme;
    rewrite Hme; clear Hme Hrun.
  - destruct (check_prerequisites_run self w) as (_ & _ & Hs). rewrite Hs.
    repeat split; intros; congruence.
  - rewrite !stages_app.
    destruct (check_prerequisites_run self w) as (_ & _ & ->).
    rewrite generate_ssh_key_banner.
    match goal with |- context [events_of (copy_ssh_keys self) ?w2] =>
      destruct (copy_ssh_keys_stage self w2) as [_ ->] end.
    match goal with |- context [events_of (test_ssh_connections self) ?w3] =>
      destruct (test_ssh_connections_stage self w3) as [_ ->] end.
    repeat split; intros; congruence.
  - rewrite !stages_app.
    destruct (check_prerequisites_run self w) as (_ & _ & ->).
    rewrite generate_ssh_key_banner.
    match goal with |- context [events_of (copy_ssh_keys self) ?w2] =>
      destruct (copy_ssh_keys_stage self w2) as [_ ->] end.
    match goal with |- context [events_of (test_ssh_connections self) ?w3] =>
      destruct (test_ssh_connections_stage self w3) as [_ ->] end.
    match goal with |- context [events_of (setup_sudoers self) ?w4] =>
      destruct (setup_sudoers_stage self w4) as [_ ->] end.
    match goal with |- context [events_of (if negb (arg_skip_prep args) then _ else _) ?w5] =>
      destruct (optional_stage_returns "Preparing Nodes" (arg_skip_prep args)
                  (prepare_nodes self) w5 (prepare_nodes_stage self)) as [_ ->] end.
    match goal with |- context [events_of (if negb (arg_skip_firewall args) then _ else _) ?w6] =>
      destruct (optional_stage_returns "Configuring Firewall" (arg_skip_firewall args)
                  (configure_firewall self) w6 (configure_firewall_stage self))
        as [_ ->] end.
    repeat split; intros; congruence.
Qed.

End StopPoint.

(** ** The gates of a build *)

Section Gates.
Context {World : Type} `{System World}.

(** X8.  On the build path, when the prerequisite check passes and the
    connectivity check fails, the run is exactly four stage executions
    (prerequisite check, key generation, key distribution, connectivity
    check) followed by [sys.exit(1)]: the trace of the run is the traces
    of these four, in order, and nothing is done after the failed check.
    The sudo setup, the node preparation, the firewall stage and the
    terraform stages are not started. *)
Theorem main_stops_at_connectivity (args : Args) (w : World) :
  arg_destroy args = false -> arg_verify_only args = false ->
  let self := ClusterSetup_init (arg_master_ip args) (arg_worker_ips args)
                (arg_ssh_user args) (arg_ssh_key args) in
  let w1 := world_after (check_prerequisites self) w in
  let w2 := world_after (generate_ssh_key self) w1 in
  let w3 := before_connectivity self w in
  value_of (check_prerequisites self) w = Ret true ->
  value_of (test_ssh_connections self) w3 = Ret false ->
  main args w =
    (Exit 1, world_after (test_ssh_connections self) w3,
     (events_of (check_prerequisites self) w ++
      events_of (generate_ssh_key self) w1 ++
      events_of (copy_ssh_keys self) w2 ++
      events_of (test_ssh_connections self) w3)%list) /\
  exit_code (value_of (main args) w) = 1%Z /\
  stages (events_of (main args) w) =
    ["Checking Prerequisites"; "Generating SSH Key";
     "Copying SSH Keys to Nodes"; "Testing SSH Connections"].
Proof.
  intros Hd Hv self w1 w2 w3 Hok Hconn.
  destruct (main_build_stop args w Hd Hv) as (_ & Hb & _).
  specialize (Hb Hok Hconn). subst w3. unfold before_connectivity in *.
  destruct (main_build_cases args w Hd Hv) as [[Hno _]|[(_ & _ & Hrun)|(_ & Hyes & _)]];
    fold self in Hno || fold self in Hrun || fold self in Hyes; try congruence.
  split; [exact Hrun|]. split; [|exact Hb].
  unfold value_of. now rewrite Hrun.
Qed.

(** X11.  The stage [terraform_apply] is started only at the end of a
    build that passed every gate before it: if its banner is printed in
    a run of [main], then neither [--destroy] nor [--verify-only] was
    given, the prerequisite check and the connectivity check answered
    true, the directory [cluster] was entered, and [terraform init],
    [terraform validate] and [terraform plan] each exited with status 0. *)
Theorem main_applies_only_after_gates (args : Args) (w : World) :
  In "Applying Terraform Configuration" (stages (events_of (main args) w)) ->
  let self := ClusterSetup_init (arg_master_ip args) (arg_worker_ips args)
                (arg_ssh_user args) (arg_ssh_key args) in
  arg_destroy args = false /\
  arg_verify_only args = false /\
  value_of (check_prerequisites self) w = Ret true /\
  value_of (test_ssh_connections self) (before_connectivity self w) = Ret true /\
  exists w', chdir "cluster" (before_terraform_with args self w) = Some w' /\
             statuses ["terraform init"; "terraform validate"; "terraform plan"] w' =
               [0; 0; 0]%Z.
Proof.
  intros Hin self.
  destruct (arg_destroy args) eqn:Hd.
  { exfalso. unfold main in Hin. rewrite Hd in Hin.
    destruct (fatal_stage "Destroying Cluster" "terraform destroy -auto-approve"
                "Cluster destroyed" "Failed to destroy cluster" w)
      as (_ & _ & Hs & _).
    unfold terraform_destroy in Hin. rewrite Hs in Hin.
    destruct Hin as [Hin|[]]. discriminate. }
  destruct (arg_verify_only args) eqn:Hv.
  { exfalso. unfold main in Hin. rewrite Hd, Hv in Hin.
    destruct (verify_cluster_stage
                (ClusterSetup_init (arg_master_ip args) (arg_worker_ips args)
                   (arg_ssh_user args) (arg_ssh_key args)) w) as [_ Hs].
    rewrite Hs in Hin. destruct Hin as [Hin|[]]. discriminate. }
  destruct (main_build_stop args w Hd Hv) as (Ha & Hb & Hc).
  fold self in Ha, Hb, Hc.
  destruct (check_prerequisites_run self w) as (Hcv & _ & _).
  destruct (value_of (check_prerequisites self) w) as [[|]| |] eqn:Hcp;
    try discriminate.
  2:{ exfalso. rewrite (Ha eq_refl) in Hin. destruct Hin as [Hin|[]]. discriminate. }
  destruct (test_ssh_connections_stage self (before_connectivity self w))
    as [[b Hconn] _].
  destruct b.
  2:{ exfalso. rewrite (Hb eq_refl Hconn) in Hin. cbn in Hin.
      repeat (destruct Hin as [Hin|Hin]; [discriminate|]). exact Hin. }
  rewrite (Hc eq_refl Hconn), terraform_phase_stop in Hin.
  repeat split; try assumption.
  destruct (chdir "cluster" (before_terraform_with args self w)) as [w'|].
  2:{ exfalso. destruct (arg_skip_prep args), (arg_skip_firewall args); cbn in Hin;
        repeat (destruct Hin as [Hin|Hin]; [discriminate|]); exact Hin. }
  exists w'. split; [reflexivity|].
  cbn [terraform_commands statuses leading_ok] in Hin. cbn [statuses].
  destruct (Z.eqb_spec (returncode (fst (exec "terraform init" w'))) 0) as [E1|N1].
  2:{ exfalso. destruct (arg_skip_prep args), (arg_skip_firewall args); cbn in Hin;
        repeat (destruct Hin as [Hin|Hin]; [discriminate|]); exact Hin. }
  destruct (Z.eqb_spec (returncode (fst (exec "terraform validate"
              (snd (exec "terraform init" w'))))) 0) as [E2|N2].
  2:{ exfalso. destruct (arg_skip_prep args), (arg_skip_firewall args); cbn in Hin;
        repeat (destruct Hin as [Hin|Hin]; [discriminate|]); exact Hin. }
  destruct (Z.eqb_spec (returncode (fst (exec "terraform plan"
              (snd (exec "terraform validate" (snd (exec "terraform init" w'))))))) 0)
    as [E3|N3].
  2:{ exfalso. destruct (arg_skip_prep args), (arg_skip_firewall args); cbn in Hin;
        repeat (destruct Hin as [Hin|Hin]; [discriminate|]); exact Hin. }
  now rewrite E1, E2, E3.
Qed.

(** X12.  In [main] the key-generation stage never generates a key.  On
    the build path it is called in the world the prerequisite check
    leaves.  If the key file is missing there, the check has answered
    false and the run is over after the check, with status 1.  If the
    stage is reached at all, it finds the key: it prints its banner and
    the warning, touches nothing, and these two lines follow the trace
    of the check in the trace of the run. *)
Theorem main_never_generates_key (args : Args) (w : World) :
  arg_destroy args = false -> arg_verify_only args = false ->
  let self := ClusterSetup_init (arg_master_ip args) (arg_worker_ips args)
                (arg_ssh_user args) (arg_ssh_key args) in
  let w1 := world_after (check_prerequisites self) w in
  let report :=
    [EPrint Step "Generating SSH Key";
     EPrint Warning ("SSH key already exists at " ++ ssh_key_path self)] in
  (path_exists (ssh_key_path self) w1 = false ->
   main args w = (Exit 1, w1, events_of (check_prerequisites self) w)) /\
  (In "Generating SSH Key" (stages (events_of (main args) w)) ->
   path_exists (ssh_key_path self) w1 = true /\
   generate_ssh_key self w1 = (Ret tt, w1, report) /\
   exists rest,
     events_of (main args) w =
       (events_of (check_prerequisites self) w ++ report ++ rest)%list).
Proof.
  intros Hd Hv self w1 report.
  destruct (main_build_stop args w Hd Hv) as (Ha & _ & _). fold self in Ha.
  destruct (check_prerequisites_run self w) as (Hcv & Hcw & _).
  fold w1 in Hcw.
  destruct (main_build_cases args w Hd Hv)
    as [[Hno Hrun]|[(Hok & _ & Hrun)|(Hok & _ & Hrun)]];
    fold self in Hno || fold self in Hok; fold self in Hrun; fold w1 in Hrun.
  - split; [intros _; exact Hrun|].
    intros Hin. exfalso. rewrite (Ha Hno) in Hin. destruct Hin as [Hin|[]].
    discriminate.
  - pose proof (check_prerequisites_finds_key self w Hok) as Hkey. fold w1 in Hkey.
    pose proof (generate_ssh_key_present self w1 Hkey) as Hg. fold report in Hg.
    split; [intros Hmiss; congruence|]. intros _.
    split; [exact Hkey|]. split; [exact Hg|].
    unfold events_of at 1. rewrite Hrun. cbn [snd].
    unfold events_of at 2. rewrite Hg. cbn [snd]. eexists. reflexivity.
  - pose proof (check_prerequisites_finds_key self w Hok) as Hkey. fold w1 in Hkey.
    pose proof (generate_ssh_key_present self w1 Hkey) as Hg. fold report in Hg.
    split; [intros Hmiss; congruence|]. intros _.
    split; [exact Hkey|]. split; [exact Hg|].
    unfold events_of at 1. rewrite Hrun. cbn [snd].
    rewrite <- !app_assoc.
    unfold events_of at 2. rewrite Hg. cbn [snd]. eexists. reflexivity.
Qed.

End Gates.

(** ** The default run, stage by stage *)

Section DefaultStop.
Context {World : Type} `{System World}.


End DefaultStop.


(** ** Exit status *)

Section ExitStatus.
Context {World : Type} `{System World}.

(** X13.  Once the command line is parsed, whatever the flags are and
    whatever the world answers, the process ends with status 0 or 1:
    0 when [main] returns, 1 on [sys.exit(1)] and on an exception that
    escapes. *)
Theorem main_exit_status (args : Args) (w : World) :
  exit_code (value_of (main args) w) = 0%Z \/
  exit_code (value_of (main args) w) = 1%Z.
Proof.
  destruct (arg_destroy args) eqn:Hd.
  { unfold main. rewrite Hd.
    destruct (fatal_stage "Destroying Cluster" "terraform destroy -auto-approve"
                "Cluster destroyed" "Failed to destroy cluster" w)
      as (Hval & _).
    unfold terraform_destroy. rewrite Hval.
    destruct (returncode (fst (exec "terraform destroy -auto-approve" w)) =? 0)%Z;
      [now left | now right]. }
  destruct (arg_verify_only args) eqn:Hv.
  { unfold main. rewrite Hd, Hv.
    destruct (verify_cluster_run
                (ClusterSetup_init (arg_master_ip args) (arg_worker_ips args)
                   (arg_ssh_user args) (arg_ssh_key args)) w)
      as (r1 & r2 & r3 & Hval & _).
    rewrite Hval. now left. }
  destruct (main_build_core args w Hd Hv) as (_ & Hcode & _). exact Hcode.
Qed.

End ExitStatus.

(** ** More runs in the laboratory *)

Lemma main_skip_flags_witness :
  (arg_skip_prep skip_args = true /\ arg_skip_firewall skip_args = true) /\
  stages (events_of (main skip_args) (lab true healthy_answer)) =
    expected_stages skip_args /\
  ~ In "Preparing Nodes" (stages (events_of (main skip_args) (lab true healthy_answer))) /\
  ~ In "Configuring Firewall" (stages (events_of (main skip_args) (lab true healthy_answer))).
Proof.
  split; [split; reflexivity|].
  destruct (main_skip_flags (H := Lab_System) skip_args (lab true healthy_answer)
              eq_refl eq_refl) as (_ & _ & Hiff & _ & Hprep & Hfw).
  split; [apply Hiff; vm_compute; reflexivity|].
  split; [exact (Hprep eq_refl) | exact (Hfw eq_refl)].
Defined.

Lemma generate_ssh_key_missing_witness :
  path_exists (ssh_key_path default_setup) (lab false healthy_answer) = false /\
  effects (events_of (generate_ssh_key default_setup) (lab false healthy_answer)) =
    [EMkdir "/home/hkn/.ssh";
     ERun (ssh_keygen_cmd default_setup) (mkResult 0 "" "")] /\
  path_exists (ssh_key_path default_setup)
    (world_after (generate_ssh_key default_setup) (lab false healthy_answer)) = true.
Proof.
  split; [reflexivity|].
  pose proof (generate_ssh_key_missing (H := Lab_System) default_setup
                (lab false healthy_answer) eq_refl) as Hm.
  cbn [mkdir_parents Lab_System] in Hm. destruct Hm as (_ & Hw & He).
  split; [exact He|]. rewrite Hw. reflexivity.
Defined.

Lemma main_stops_at_prerequisites_witness :
  exit_code (value_of (main default_args) (lab false healthy_answer)) = 1%Z /\
  commands (effects (events_of (main default_args) (lab false healthy_answer))) =
    ["terraform version"; "kubectl version --client"].
Proof.
  assert (Hfail : value_of (check_prerequisites default_setup)
                    (lab false healthy_answer) = Ret false)
    by (vm_compute; reflexivity).
  destruct (main_stops_at_prerequisites (H := Lab_System) default_args
              (lab false healthy_answer) eq_refl eq_refl Hfail) as (Hcode & _ & Heff).
  split; [exact Hcode|]. rewrite Heff. reflexivity.
Defined.

Lemma main_stops_at_connectivity_witness :
  exit_code (value_of (main default_args) (lab true flaky_answer)) = 1%Z /\
  stages (events_of (main default_args) (lab true flaky_answer)) =
    ["Checking Prerequisites"; "Generating SSH Key";
     "Copying SSH Keys to Nodes"; "Testing SSH Connections"].
Proof.
  assert (Hok : value_of (check_prerequisites default_setup)
                  (lab true flaky_answer) = Ret true)
    by (vm_compute; reflexivity).
  assert (Hconn : value_of (test_ssh_connections default_setup)
                    (before_connectivity default_setup (lab true flaky_answer)) =
                  Ret false)
    by (vm_compute; reflexivity).
  destruct (main_stops_at_connectivity (H := Lab_System) default_args
              (lab true flaky_answer) eq_refl eq_refl Hok Hconn) as (_ & Hcode & Hst).
  split; assumption.
Defined.

Lemma main_applies_only_after_gates_witness :
  In "Applying Terraform Configuration"
     (stages (events_of (main default_args) (lab true healthy_answer))) /\
  value_of (test_ssh_connections default_setup)
    (before_connectivity default_setup (lab true healthy_answer)) = Ret true.
Proof.
  assert (Hin : In "Applying Terraform Configuration"
                   (stages (events_of (main default_args) (lab true healthy_answer)))).
  { vm_compute. repeat (first [left; reflexivity | right]). }
  split; [exact Hin|].
  destruct (main_applies_only_after_gates (H := Lab_System) default_args
              (lab true healthy_answer) Hin) as (_ & _ & _ & Hconn & _).
  exact Hconn.
Defined.

Lemma main_never_generates_key_witness :
  In "Generating SSH Key"
     (stages (events_of (main default_args) (lab true healthy_answer))) /\
  world_after (generate_ssh_key default_setup)
    (world_after (check_prerequisites default_setup) (lab true healthy_answer)) =
  world_after (check_prerequisites default_setup) (lab true healthy_answer) /\
  exit_code (value_of (main default_args) (lab false healthy_answer)) = 1%Z.
Proof.
  assert (Hin : In "Generating SSH Key"
                   (stages (events_of (main default_args) (lab true healthy_answer)))).
  { vm_compute. repeat (first [left; reflexivity | right]). }
  split; [exact Hin|]. split.
  - destruct (main_never_generates_key (H := Lab_System) default_args
                (lab true healthy_answer) eq_refl eq_refl) as [_ Hreached].
    destruct (Hreached Hin) as (_ & Hg & _).
    exact (f_equal (fun t => snd (fst t)) Hg).
  - destruct (main_never_generates_key (H := Lab_System) default_args
                (lab false healthy_answer) eq_refl eq_refl) as [Hmissing _].
    assert (Hno : path_exists (ssh_key_path default_setup)
                    (world_after (check_prerequisites default_setup)
                       (lab false healthy_answer)) = false)
      by (vm_compute; reflexivity).
    exact (f_equal (fun t => exit_code (fst (fst t))) (Hmissing Hno)).
Defined.



(** A failing plan: the build stops there, and nothing is applied. *)
Example plan_failure_stops_the_build :
  commands (events_of (terraform_phase default_setup) (lab true plan_fails_answer)) =
    ["terraform init"; "terraform validate"; "terraform plan"] /\
  exit_code (value_of (main default_args) (lab true plan_fails_answer)) = 1%Z.
Proof. split; vm_compute; reflexivity. Qed.

(** A refused tee on the first worker: no chmod and no test there. *)
Example sudoers_skips_refused_host :
  length (commands (events_of (setup_sudoers default_setup)
                      (lab true sudo_refused_answer))) = 7%nat.
Proof. vm_compute. reflexivity. Qed.
